(** * VultrDynamicDNS: the reconciliation core, embedded and verified

    A shallow embedding of [vultr_api.py], [ip_monitor.py] and
    [dns_updater.py].  Python objects become records, methods become
    functions in a state-and-exception monad, and everything outside the
    process (the provider's REST interface, the IP-echo services, the C
    library's address parser, the clock) is an [Environment] the code is
    parametrised by.  Every call that leaves the process is appended to a
    trace, so that statements such as "no provider call is issued" are
    statements about that trace. *)

From Stdlib Require Import ZArith Ascii String List Bool.
From stdpp Require Import base option list strings gmap.
Import ListNotations.

Local Open Scope Z_scope.
Local Open Scope string_scope.
Local Open Scope list_scope.

(** ** Exceptions and the monad *)

(** The exceptions the code distinguishes: [VultrAPIError] (raised by
    [VultrAPIClient._request]) and everything else that is an [Exception].
    The string is what [str(e)] returns. *)
Inductive exn : Type :=
| VultrAPIError (msg : string)
| OtherException (msg : string).

Definition str (e : exn) : string :=
  match e with
  | VultrAPIError msg => msg
  | OtherException msg => msg
  end.

(** A computation over a mutable state [S]: it ends with a value or a raised
    exception, and in both cases with the state as mutated so far. *)
Definition M (S A : Type) : Type := S -> (exn + A) * S.

Definition ret {S A} (a : A) : M S A := fun s => (inr a, s).

Definition raise {S A} (e : exn) : M S A := fun s => (inl e, s).

Definition bind {S A B} (c : M S A) (k : A -> M S B) : M S B :=
  fun s =>
    match c s with
    | (inr a, s') => k a s'
    | (inl e, s') => (inl e, s')
    end.

(** [try: c except VultrAPIError as e: h (str e)]; other exceptions pass. *)
Definition catch_api {S A} (c : M S A) (h : string -> M S A) : M S A :=
  fun s =>
    match c s with
    | (inl (VultrAPIError msg), s') => h msg s'
    | r => r
    end.

(** [try: c except Exception as e: h e]. *)
Definition catch_all {S A} (c : M S A) (h : exn -> M S A) : M S A :=
  fun s =>
    match c s with
    | (inl e, s') => h e s'
    | r => r
    end.

(** Runs [c] and hands whatever it raised to the caller as a value. *)
Definition attempt {S A} (c : M S A) : M S (exn + A) :=
  fun s => let '(r, s') := c s in (inr r, s').

(** Runs [c] and hands a raised [VultrAPIError] to the caller as a value. *)
Definition attempt_api {S A} (c : M S A) : M S (string + A) :=
  fun s =>
    match c s with
    | (inr a, s') => (inr (inr a), s')
    | (inl (VultrAPIError msg), s') => (inr (inl msg), s')
    | (inl e, s') => (inl e, s')
    end.

Declare Scope io_scope.
Delimit Scope io_scope with io.
Notation "x <- c ;; k" := (bind c (fun x => k))
  (at level 100, c at next level, right associativity) : io_scope.
Notation "c ;;; k" := (bind c (fun _ => k))
  (at level 100, right associativity) : io_scope.
Local Open Scope io_scope.

(** ** Data model *)

(** [vultr_api.DNSRecord]: fields [id], [type], [name], [data], [ttl],
    [priority]. *)
Record DNSRecord : Type := mkDNSRecord {
  r_id : string;
  r_type : string;
  r_name : string;
  r_data : string;
  r_ttl : Z;
  r_priority : option Z
}.

(** [config.DomainConfig]: fields [domain], [subdomain], [record_type],
    [ttl]. *)
Record DomainConfig : Type := mkDomainConfig {
  dc_domain : string;
  dc_subdomain : string;
  dc_record_type : string;
  dc_ttl : Z
}.

(** [config.Config], the part the updater reads. *)
Record Config : Type := mkConfig {
  api_key : string;
  domains : list DomainConfig
}.

Definition time : Type := Z.

(** [dns_updater.DNSUpdateResult]. *)
Record DNSUpdateResult : Type := mkDNSUpdateResult {
  ur_domain : string;
  ur_subdomain : string;
  ur_success : bool;
  ur_old_ip : option string;
  ur_new_ip : option string;
  ur_error : option string;
  ur_timestamp : time
}.

(** The state of an [ip_monitor.IPMonitor]. *)
Record IPMonitor : Type := mkIPMonitor {
  current_ip : option string;
  last_check : option time;
  last_update : option time
}.

(** A JSON scalar of a request body. *)
Inductive JVal : Type :=
| JStr (s : string)
| JInt (n : Z).

(** A request body: the [payload] dict of [create_dns_record] and
    [update_dns_record]. *)
Abbreviation Payload := (gmap string JVal).

(** What leaves the process, in the order it happens. *)
Inductive Event : Type :=
| EvList (domain : string)
| EvCreate (domain : string) (payload : Payload)
| EvPatch (domain record_id : string) (payload : Payload)
| EvHttpGet (url : string)
| EvSleep (seconds : Z).

Definition is_provider_call (ev : Event) : bool :=
  match ev with
  | EvList _ | EvCreate _ _ | EvPatch _ _ _ => true
  | EvHttpGet _ | EvSleep _ => false
  end.

Definition is_update_call (ev : Event) : bool :=
  match ev with EvPatch _ _ _ => true | _ => false end.

(** ** The environment *)

(** What the code reaches outside the process, over a world [W] that each
    call may change.  The provider operations stand for
    [VultrAPIClient._request] on the endpoint in question followed by the
    decoding of the response; they raise what [_request] or the decoding
    raises. *)
Record Environment (W : Type) : Type := mkEnvironment {
  (* GET /domains/{domain}/records, decoded by DNSRecord.from_api_response *)
  api_list : string -> W -> (exn + list DNSRecord) * W;
  (* POST /domains/{domain}/records with a JSON body *)
  api_create : string -> Payload -> W -> (exn + DNSRecord) * W;
  (* PATCH /domains/{domain}/records/{record_id} with a JSON body *)
  api_patch : string -> string -> Payload -> W -> (exn + unit) * W;
  (* requests.get(url, timeout=5), raise_for_status(), response.text *)
  http_get : string -> W -> (exn + string) * W;
  (* socket.inet_pton(socket.AF_INET6, ip) returns rather than raises *)
  inet_pton6 : string -> bool;
  (* datetime.now() *)
  datetime_now : W -> time * W
}.

Arguments api_list {W} _ _ _.
Arguments api_create {W} _ _ _ _.
Arguments api_patch {W} _ _ _ _ _.
Arguments http_get {W} _ _ _.
Arguments inet_pton6 {W} _ _.
Arguments datetime_now {W} _ _.

(** The world together with the trace of what was asked of it. *)
Record Net (W : Type) : Type := mkNet {
  world : W;
  trace : list Event
}.

Arguments mkNet {W} _ _.
Arguments world {W} _.
Arguments trace {W} _.

(** ** Python string helpers *)

(** [needle in hay] on strings. *)
Fixpoint str_in (needle hay : string) : bool :=
  String.prefix needle hay
  || match hay with
     | EmptyString => false
     | String _ rest => str_in needle rest
     end.

(** Truth value of a string: non-empty. *)
Definition truthy (s : string) : bool := negb (bool_decide (s = "")).

(** [str.split(sep)] for a one-character separator: never an empty list. *)
Fixpoint split (sep : ascii) (s : string) : list string :=
  match s with
  | EmptyString => [""]
  | String c rest =>
      if bool_decide (c = sep) then "" :: split sep rest
      else match split sep rest with
           | part :: parts => String c part :: parts
           | [] => [String c ""]
           end
  end.

(** White space as [str.strip] and [int] see it, for the ASCII range:
    tab to carriage return, the four separators 28 to 31, and the blank. *)
Definition is_space (c : ascii) : bool :=
  let n := nat_of_ascii c in
  ((9 <=? n) && (n <=? 13) || (28 <=? n) && (n <=? 32))%nat.

Fixpoint lstrip_chars (cs : list ascii) : list ascii :=
  match cs with
  | c :: rest => if is_space c then lstrip_chars rest else cs
  | [] => []
  end.

(** [s.strip()]. *)
Definition strip (s : string) : string :=
  string_of_list_ascii
    (rev (lstrip_chars (rev (lstrip_chars (list_ascii_of_string s))))).

Definition is_digit (c : ascii) : bool :=
  let n := nat_of_ascii c in ((48 <=? n) && (n <=? 57))%nat.

Definition digit_value (c : ascii) : Z := Z.of_nat (nat_of_ascii c) - 48.

(** The digits of a decimal literal as [int] reads them: one or more digits,
    single underscores allowed between two digits. *)
Fixpoint int_digits (acc : Z) (after_digit : bool) (cs : list ascii) : option Z :=
  match cs with
  | [] => if after_digit then Some acc else None
  | c :: rest =>
      if is_digit c then int_digits (10 * acc + digit_value c) true rest
      else if bool_decide (c = "_"%char)
           then (if after_digit then int_digits acc false rest else None)
           else None
  end.

(** [int(s)] in base ten on a string of ASCII characters; [None] stands for
    [ValueError].  Surrounding white space is dropped, one sign is allowed.
    Digits outside ASCII and the interpreter's cap on the length of a
    literal are not modelled. *)
Definition python_int (s : string) : option Z :=
  match lstrip_chars (rev (lstrip_chars (rev (list_ascii_of_string s)))) with
  | "+"%char :: digits => int_digits 0 false digits
  | "-"%char :: digits => Z.opp <$> int_digits 0 false digits
  | digits => int_digits 0 false digits
  end.

(** ** [vultr_api.VultrAPIClient] *)

Section Client.

Context {W : Type} (E : Environment W).

(** One call to the outside: log it, let the world answer. *)
Definition call {A} (ev : Event) (f : W -> (exn + A) * W) : M (Net W) A :=
  fun n =>
    let '(r, w) := f (world n) in
    (r, mkNet w (trace n ++ [ev])).

Definition list_dns_records (domain : string) : M (Net W) (list DNSRecord) :=
  call (EvList domain) (api_list E domain).

Definition create_dns_record (domain name record_type data : string)
    (ttl : Z) (priority : option Z) : M (Net W) DNSRecord :=
  let payload : Payload :=
    <["ttl" := JInt ttl]>
      (<["data" := JStr data]>
         (<["type" := JStr record_type]>
            (<["name" := JStr name]> ∅))) in
  let payload :=
    match priority with
    | Some p => <["priority" := JInt p]> payload
    | None => payload
    end in
  call (EvCreate domain payload) (api_create E domain payload).

Definition update_dns_record (domain record_id : string)
    (data name : option string) (ttl priority : option Z) : M (Net W) unit :=
  let payload : Payload := ∅ in
  let payload :=
    match data with Some d => <["data" := JStr d]> payload | None => payload end in
  let payload :=
    match name with Some nm => <["name" := JStr nm]> payload | None => payload end in
  let payload :=
    match ttl with Some t => <["ttl" := JInt t]> payload | None => payload end in
  let payload :=
    match priority with Some p => <["priority" := JInt p]> payload | None => payload end in
  if decide (payload = ∅) then ret tt
  else call (EvPatch domain record_id payload) (api_patch E domain record_id payload).

(** The names a record of the target may carry at the provider. *)
Definition target_names (domain subdomain : string) : list string :=
  if truthy subdomain
  then [subdomain; subdomain +:+ "." +:+ domain; subdomain +:+ "."]
  else [""; "@"; domain; domain +:+ "."].

(** The test of the [for record in records] loop. *)
Definition record_matches (record_type : string) (names : list string)
    (record : DNSRecord) : bool :=
  bool_decide (r_type record = record_type)
  && bool_decide (r_name record ∈ names).

Definition find_dns_record (domain subdomain record_type : string)
  : M (Net W) (option DNSRecord) :=
  records <- list_dns_records domain ;;
  let names := target_names domain subdomain in
  ret (List.find (record_matches record_type names) records).

(** The [for try_ttl in common_ttls] loop of the innermost handler,
    followed by the [raise ttl_error] it falls through to.  [ttl] is the
    value already tried, [ttl_error] the message of the caught error. *)
Fixpoint retry_common_ttls (domain name record_type ip_address : string)
    (ttl : Z) (ttl_error : string) (ttls : list Z) : M (Net W) unit :=
  match ttls with
  | [] => raise (VultrAPIError ttl_error)
  | try_ttl :: rest =>
      if negb (try_ttl =? ttl)%Z
      then catch_api
             (create_dns_record domain name record_type ip_address try_ttl None ;;;
              ret tt)
             (fun _ =>
                retry_common_ttls domain name record_type ip_address ttl ttl_error rest)
      else retry_common_ttls domain name record_type ip_address ttl ttl_error rest
  end.

Definition common_ttls : list Z := [3600; 1800; 7200; 300; 600].

(** The handler [except VultrAPIError as e] of the creation branch.  It runs
    with the local [ttl] as it stands when the exception is caught. *)
Definition create_after_error (domain name record_type ip_address : string)
    (ttl : Z) : M (Net W) unit :=
  catch_api
    (create_dns_record domain name record_type ip_address ttl None ;;; ret tt)
    (fun ttl_error =>
       if str_in "TTL" ttl_error
       then retry_common_ttls domain name record_type ip_address ttl ttl_error
              common_ttls
       else raise (VultrAPIError ttl_error)).

(** The TTL the creation branch settles on once the listing is known. *)
Definition domain_ttl (all_records : list DNSRecord) (ttl : Z) : Z :=
  match all_records with
  | [] => ttl
  | first :: _ =>
      let first_record_ttl := r_ttl first in
      if negb (ttl =? first_record_ttl)%Z then first_record_ttl else ttl
  end.

(** [update_or_create_dns_record].  In the source one [try] block holds the
    listing, the reassignment of [ttl] and the creation; its handler reads
    [ttl], so it sees the configured value when the listing raised and the
    reassigned one when the creation raised. *)
Definition update_or_create_dns_record (domain subdomain ip_address record_type : string)
    (ttl : Z) : M (Net W) unit :=
  existing_record <- find_dns_record domain subdomain record_type ;;
  let name := if truthy subdomain then subdomain else "@" in
  match existing_record with
  | Some existing =>
      if negb (bool_decide (r_data existing = ip_address))
      then update_dns_record domain (r_id existing) (Some ip_address) None None None
      else ret tt
  | None =>
      listed <- attempt_api (list_dns_records domain) ;;
      match listed with
      | inl _ => create_after_error domain name record_type ip_address ttl
      | inr all_records =>
          let ttl := domain_ttl all_records ttl in
          catch_api
            (create_dns_record domain name record_type ip_address ttl None ;;;
             ret tt)
            (fun _ => create_after_error domain name record_type ip_address ttl)
      end
  end.

(** [datetime.now()]. *)
Definition now : M (Net W) time :=
  fun n => let '(t, w) := datetime_now E (world n) in (inr t, mkNet w (trace n)).

(** [time.sleep(seconds)]. *)
Definition sleep (seconds : Z) : M (Net W) unit :=
  fun n => (inr tt, mkNet (world n) (trace n ++ [EvSleep seconds])).

(** ** [ip_monitor.IPMonitor] *)

Definition IP_SERVICES : list string :=
  [ "https://api.ipify.org";
    "https://ipapi.co/ip";
    "https://checkip.amazonaws.com";
    "https://ifconfig.me/ip";
    "https://icanhazip.com";
    "https://ident.me" ].

(** The [for part in parts] loop of [_validate_ip]. *)
Fixpoint octets_in_range (parts : list string) : bool :=
  match parts with
  | [] => true
  | part :: rest =>
      match python_int part with
      | None => false
      | Some num =>
          if (num <? 0)%Z || (num >? 255)%Z then false else octets_in_range rest
      end
  end.

Definition _validate_ip (ip : string) : bool :=
  let parts := split "." ip in
  if (length parts =? 4)%nat then octets_in_range parts
  else inet_pton6 E ip.

(** The [for service in IP_SERVICES] loop of [get_public_ip]. *)
Fixpoint get_public_ip_from (services : list string) : M (Net W) (option string) :=
  match services with
  | [] => ret None
  | service :: rest =>
      response <- attempt (call (EvHttpGet service) (http_get E service)) ;;
      match response with
      | inr text =>
          let ip := strip text in
          if _validate_ip ip then ret (Some ip) else get_public_ip_from rest
      | inl _ => get_public_ip_from rest
      end
  end.

Definition get_public_ip : M (Net W) (option string) :=
  get_public_ip_from IP_SERVICES.

End Client.

(** ** [dns_updater.DNSUpdater] *)

(** The objects a [DNSUpdater] holds and mutates, with the outside world. *)
Record App (W : Type) : Type := mkApp {
  net : Net W;
  monitor : IPMonitor;
  update_history : list DNSUpdateResult
}.

Arguments mkApp {W} _ _ _.
Arguments net {W} _.
Arguments monitor {W} _.
Arguments update_history {W} _.

Section Updater.

Context {W : Type} (E : Environment W).

(** A computation on the outside world, run from the updater. *)
Definition lift_net {A} (c : M (Net W) A) : M (App W) A :=
  fun a =>
    let '(r, n) := c (net a) in
    (r, mkApp n (monitor a) (update_history a)).

Definition get_monitor : M (App W) IPMonitor :=
  fun a => (inr (monitor a), a).

Definition set_monitor (m : IPMonitor) : M (App W) unit :=
  fun a => (inr tt, mkApp (net a) m (update_history a)).

Definition append_history (result : DNSUpdateResult) : M (App W) unit :=
  fun a => (inr tt, mkApp (net a) (monitor a) (update_history a ++ [result])).

(** The resolver's call as [check_ip_change] makes it: on the world as the
    reading of the clock left it. *)
Definition resolve (a : App W) : (exn + option string) * Net W :=
  get_public_ip E (mkNet (snd (datetime_now E (world (net a)))) (trace (net a))).

(** [IPMonitor.check_ip_change]. *)
Definition check_ip_change : M (App W) (bool * option string) :=
  t <- lift_net (now E) ;;
  m <- get_monitor ;;
  set_monitor (mkIPMonitor (current_ip m) (Some t) (last_update m)) ;;;
  new_ip <- lift_net (get_public_ip E) ;;
  match new_ip with
  | None => ret (false, None)
  | Some ip =>
      m <- get_monitor ;;
      match current_ip m with
      | None =>
          set_monitor (mkIPMonitor (Some ip) (last_check m) (last_update m)) ;;;
          ret (true, Some ip)
      | Some old_ip =>
          if negb (bool_decide (ip = old_ip))
          then set_monitor (mkIPMonitor (Some ip) (last_check m) (last_update m)) ;;;
               ret (true, Some ip)
          else ret (false, Some ip)
      end
  end.

(** [DNSUpdater._update_single_domain]. *)
Definition _update_single_domain (domain_config : DomainConfig) (ip_address : string)
  : M (Net W) DNSUpdateResult :=
  catch_all
    (existing_record <-
       find_dns_record E (dc_domain domain_config) (dc_subdomain domain_config)
         (dc_record_type domain_config) ;;
     let old_ip := r_data <$> existing_record in
     update_or_create_dns_record E (dc_domain domain_config)
       (dc_subdomain domain_config) ip_address (dc_record_type domain_config)
       (dc_ttl domain_config) ;;;
     timestamp <- now E ;;
     ret (mkDNSUpdateResult (dc_domain domain_config) (dc_subdomain domain_config)
            true old_ip (Some ip_address) None timestamp))
    (fun e =>
       timestamp <- now E ;;
       let error :=
         match e with
         | VultrAPIError msg => msg
         | OtherException msg => "Unexpected error: " +:+ msg
         end in
       ret (mkDNSUpdateResult (dc_domain domain_config) (dc_subdomain domain_config)
              false None None (Some error) timestamp)).

(** The [for domain_config in self.config.domains] loop of
    [update_all_domains]; [n_domains] is [len(self.config.domains)]. *)
Fixpoint update_domains_loop (n_domains : nat) (ip_address : string)
    (todo : list DomainConfig) (results : list DNSUpdateResult)
  : M (App W) (list DNSUpdateResult) :=
  match todo with
  | [] => ret results
  | domain_config :: rest =>
      result <- lift_net (_update_single_domain domain_config ip_address) ;;
      let results := results ++ [result] in
      append_history result ;;;
      (if (1 <? n_domains)%nat then lift_net (sleep 1) else ret tt) ;;;
      update_domains_loop n_domains ip_address rest results
  end.

Definition update_all_domains (config : Config) (ip_address : string)
  : M (App W) (list DNSUpdateResult) :=
  update_domains_loop (length (domains config)) ip_address (domains config) [].

(** [DNSUpdater.check_and_update]. *)
Definition check_and_update (config : Config) : M (App W) bool :=
  catch_all
    (changed <- check_ip_change ;;
     let '(has_changed, new_ip) := changed in
     match new_ip with
     | Some ip =>
         if has_changed && truthy ip then
           results <- update_all_domains config ip ;;
           let success_count := length (List.filter ur_success results) in
           let total_count := length results in
           if (success_count =? total_count)%nat then
             t <- lift_net (now E) ;;
             m <- get_monitor ;;
             set_monitor (mkIPMonitor (current_ip m) (last_check m) (Some t)) ;;;
             ret true
           else if (0 <? success_count)%nat then ret false
           else ret false
         else ret true
     | None => ret true
     end)
    (fun _ => ret false).

End Updater.

(** The target an outcome belongs to, and the target of a configuration
    entry. *)
Definition target_of (result : DNSUpdateResult) : string * string :=
  (ur_domain result, ur_subdomain result).

Definition target_name (domain_config : DomainConfig) : string * string :=
  (dc_domain domain_config, dc_subdomain domain_config).

(** ** An in-memory environment

    A small provider, echo service and clock that the examples below run
    the code against.  The provider hosts some zones, refuses the TTLs of
    [refused_ttls] on creation, and applies a patch field by field. *)

Record MemWorld : Type := mkMemWorld {
  zones : gmap string (list DNSRecord);
  refused_ttls : list Z;
  echo : gmap string string;
  clock : time
}.

Definition payload_str (payload : Payload) (key default : string) : string :=
  match payload !! key with
  | Some (JStr s) => s
  | _ => default
  end.

Definition payload_int (payload : Payload) (key : string) : option Z :=
  match payload !! key with
  | Some (JInt n) => Some n
  | _ => None
  end.

Definition mem_list (domain : string) (w : MemWorld)
  : (exn + list DNSRecord) * MemWorld :=
  match zones w !! domain with
  | Some records => (inr records, w)
  | None => (inl (VultrAPIError "VULTR API error: Invalid domain"), w)
  end.

Definition mem_create (domain : string) (payload : Payload) (w : MemWorld)
  : (exn + DNSRecord) * MemWorld :=
  match zones w !! domain with
  | None => (inl (VultrAPIError "VULTR API error: Invalid domain"), w)
  | Some records =>
      let ttl := default 300 (payload_int payload "ttl") in
      if bool_decide (ttl ∈ refused_ttls w)
      then (inl (VultrAPIError "VULTR API error: Invalid TTL"), w)
      else
        let record :=
          mkDNSRecord ("id-" +:+ payload_str payload "name" "")
            (payload_str payload "type" "") (payload_str payload "name" "")
            (payload_str payload "data" "") ttl (payload_int payload "priority") in
        (inr record,
         mkMemWorld (<[domain := records ++ [record]]> (zones w))
           (refused_ttls w) (echo w) (clock w))
  end.

Definition patch_record (record_id : string) (payload : Payload)
    (record : DNSRecord) : DNSRecord :=
  if bool_decide (r_id record = record_id) then
    mkDNSRecord (r_id record) (r_type record)
      (payload_str payload "name" (r_name record))
      (payload_str payload "data" (r_data record))
      (default (r_ttl record) (payload_int payload "ttl"))
      (match payload_int payload "priority" with
       | Some p => Some p
       | None => r_priority record
       end)
  else record.

Definition mem_patch (domain record_id : string) (payload : Payload) (w : MemWorld)
  : (exn + unit) * MemWorld :=
  match zones w !! domain with
  | None => (inl (VultrAPIError "VULTR API error: Invalid domain"), w)
  | Some records =>
      if existsb (fun r => bool_decide (r_id r = record_id)) records
      then (inr tt,
            mkMemWorld (<[domain := patch_record record_id payload <$> records]> (zones w))
              (refused_ttls w) (echo w) (clock w))
      else (inl (VultrAPIError "VULTR API error: Invalid record"), w)
  end.

Definition mem_http_get (url : string) (w : MemWorld) : (exn + string) * MemWorld :=
  match echo w !! url with
  | Some body => (inr body, w)
  | None => (inl (OtherException "Connection refused"), w)
  end.

Definition mem_now (w : MemWorld) : time * MemWorld :=
  (clock w, mkMemWorld (zones w) (refused_ttls w) (echo w) (clock w + 1)).

(** The examples use IPv4 addresses only; the parser of the in-memory
    environment knows the two shortest IPv6 addresses. *)
Definition mem_inet_pton6 (ip : string) : bool :=
  bool_decide (ip ∈ ["::"; "::1"]).

Definition mem_env : Environment MemWorld :=
  mkEnvironment MemWorld mem_list mem_create mem_patch mem_http_get
    mem_inet_pton6 mem_now.

(** A zone with a root record and a [blog] record at the old address. *)
Definition example_zone : list DNSRecord :=
  [ mkDNSRecord "r1" "NS" "" "ns1.vultr.com" 300 None;
    mkDNSRecord "r2" "A" "" "198.51.100.1" 1800 None;
    mkDNSRecord "r3" "A" "bloggy" "198.51.100.2" 600 None;
    mkDNSRecord "r4" "A" "blog" "198.51.100.1" 1800 None ].

Definition example_world : MemWorld :=
  mkMemWorld {[ "example.com" := example_zone ]} []
    {[ "https://api.ipify.org" := "203.0.113.7" ]} 1000.

(** A hosted zone without records whose provider refuses a TTL of 300. *)
Definition strict_ttl_world : MemWorld :=
  mkMemWorld {[ "example.com" := [] ]} [300]
    {[ "https://api.ipify.org" := "203.0.113.7" ]} 1000.

(** No echo service answers. *)
Definition offline_world : MemWorld :=
  mkMemWorld {[ "example.com" := example_zone ]} [] ∅ 1000.

Definition fresh_monitor : IPMonitor := mkIPMonitor None None None.

Definition start (w : MemWorld) : App MemWorld :=
  mkApp (mkNet w []) fresh_monitor [].

Definition blog_target : DomainConfig := mkDomainConfig "example.com" "blog" "A" 300.
Definition root_target : DomainConfig := mkDomainConfig "example.com" "" "A" 300.
Definition stray_target : DomainConfig := mkDomainConfig "example.org" "www" "A" 300.

(** The body [create_dns_record] sends when it is given no priority. *)
Definition creation_payload (name record_type data : string) (ttl : Z) : Payload :=
  <["ttl" := JInt ttl]>
    (<["data" := JStr data]>
       (<["type" := JStr record_type]> (<["name" := JStr name]> ∅))).

(** The TTLs of the creation requests of a trace, in order. *)
Definition created_ttls (events : list Event) : list (option Z) :=
  omap (fun ev =>
          match ev with
          | EvCreate _ payload => Some (payload_int payload "ttl")
          | _ => None
          end) events.

(** ** The rest of the updater, the monitor and the daemon loop *)

(** [config.DomainConfig.full_domain]. *)
Definition full_domain (domain_config : DomainConfig) : string :=
  if truthy (dc_subdomain domain_config)
  then dc_subdomain domain_config +:+ "." +:+ dc_domain domain_config
  else dc_domain domain_config.

(** [DNSUpdateResult.get_full_domain]. *)
Definition get_full_domain (result : DNSUpdateResult) : string :=
  if truthy (ur_subdomain result)
  then ur_subdomain result +:+ "." +:+ ur_domain result
  else ur_domain result.

(** A value of the dicts [verify_dns_records] returns. *)
Inductive PyVal : Type :=
| PStr (s : string)
| PInt (n : Z)
| PBool (b : bool).

Section Operations.

Context {W : Type} (E : Environment W).

(** [IPMonitor.reset]. *)
Definition reset : M (App W) unit :=
  set_monitor (mkIPMonitor None None None).

(** [DNSUpdater.force_update]: [not current_ip] holds of [None] and of the
    empty string. *)
Definition force_update (config : Config) : M (App W) (list DNSUpdateResult) :=
  current <- lift_net (get_public_ip E) ;;
  match current with
  | Some ip => if truthy ip then update_all_domains E config ip else ret []
  | None => ret []
  end.

(** The body of the loop of [verify_dns_records] for one target. *)
Definition verify_one (domain_config : DomainConfig)
  : M (Net W) (gmap string PyVal) :=
  catch_all
    (record <-
       find_dns_record E (dc_domain domain_config) (dc_subdomain domain_config)
         (dc_record_type domain_config) ;;
     match record with
     | Some r =>
         ret (<["exists" := PBool true]>
                (<["type" := PStr (r_type r)]>
                   (<["ttl" := PInt (r_ttl r)]>
                      (<["current_ip" := PStr (r_data r)]>
                         (<["domain" := PStr (full_domain domain_config)]> ∅)))))
     | None =>
         ret (<["error" := PStr "Record not found"]>
                (<["exists" := PBool false]>
                   (<["domain" := PStr (full_domain domain_config)]> ∅)))
     end)
    (fun e =>
       ret (<["error" := PStr (str e)]>
              (<["exists" := PBool false]>
                 (<["domain" := PStr (full_domain domain_config)]> ∅)))).

Fixpoint verify_loop (todo : list DomainConfig)
    (verification_results : list (gmap string PyVal))
  : M (Net W) (list (gmap string PyVal)) :=
  match todo with
  | [] => ret verification_results
  | domain_config :: rest =>
      entry <- verify_one domain_config ;;
      verify_loop rest (verification_results ++ [entry])
  end.

(** [DNSUpdater.verify_dns_records]. *)
Definition verify_dns_records (config : Config)
  : M (Net W) (list (gmap string PyVal)) :=
  verify_loop (domains config) [].




End Operations.

(** A zone whose only record carries the full name of the [blog] target. *)
Definition fqdn_world : MemWorld :=
  mkMemWorld
    {[ "example.com" :=
         [mkDNSRecord "r9" "A" "blog.example.com" "198.51.100.9" 300 None] ]}
    [] {[ "https://api.ipify.org" := "203.0.113.7" ]} 1000.

(** An outcome as [_update_single_domain] builds it for the address [ip]:
    a success with the new address and no error, or a failure with an error
    and no address. *)
Definition outcome_shape (ip : string) (result : DNSUpdateResult) : Prop :=
  (ur_success result = true /\ ur_new_ip result = Some ip /\
   ur_error result = None) \/
  (ur_success result = false /\ ur_old_ip result = None /\
   ur_new_ip result = None /\ is_Some (ur_error result)).

(** An entry of [verify_dns_records]: a record with its address, or an
    error. *)
Definition entry_shape (entry : gmap string PyVal) : Prop :=
  (entry !! "exists" = Some (PBool true) /\ is_Some (entry !! "current_ip") /\
   entry !! "error" = None) \/
  (entry !! "exists" = Some (PBool false) /\ entry !! "current_ip" = None /\
   is_Some (entry !! "error")).

(** ** [cleanup_dns.py] *)

(** [str.lower] on the ASCII letters. *)
Definition lower_char (c : ascii) : ascii :=
  let n := nat_of_ascii c in
  if ((65 <=? n) && (n <=? 90))%nat then ascii_of_nat (n + 32) else c.

Definition lower (s : string) : string :=
  string_of_list_ascii (lower_char <$> list_ascii_of_string s).

(** The script at the terminal: the outside world with the trace of the
    listings, the lines of standard input still to be read, and the
    deletions asked of the provider so far, as pairs of a domain and a
    record id. *)
Record Terminal (W : Type) : Type := mkTerminal {
  t_net : Net W;
  stdin : list string;
  deletions : list (string * string)
}.

Arguments mkTerminal {W} _ _ _.
Arguments t_net {W} _.
Arguments stdin {W} _.
Arguments deletions {W} _.

(** How the [while True] loop of the script ends. *)
Inductive Choice : Type :=
| Cancelled
| Chosen (choice_num : Z)
| EndOfInput.

(** The [while True] loop that asks which record to keep, on the lines of
    standard input: it returns how it ended and the lines left.  A line
    that [int] does not read, or a number out of range, asks again;
    [input] at the end of the input raises [EOFError], which the loop does
    not catch. *)
Fixpoint read_choice (count : nat) (lines : list string) : Choice * list string :=
  match lines with
  | [] => (EndOfInput, [])
  | line :: rest =>
      let choice := strip line in
      if bool_decide (lower choice = "cancel") then (Cancelled, rest)
      else
        match python_int choice with
        | None => read_choice count rest
        | Some number =>
            let choice_num := (number - 1)%Z in
            if (0 <=? choice_num)%Z && (choice_num <? Z.of_nat count)%Z
            then (Chosen choice_num, rest)
            else read_choice count rest
        end
  end.

(** The root address records the script looks at. *)
Definition root_a_records (records : list DNSRecord) : list DNSRecord :=
  List.filter (fun r => bool_decide (r_type r = "A") && bool_decide (r_name r = ""))
    records.

Section Cleanup.

Context {W : Type} (E : Environment W).

(** DELETE /domains/{domain}/records/{record_id}, as [_request] answers it. *)
Context (api_delete : string -> string -> W -> (exn + unit) * W).

(** [VultrAPIClient.delete_dns_record]. *)
Definition delete_dns_record (domain record_id : string) : M (Terminal W) unit :=
  fun t =>
    let '(r, w) := api_delete domain record_id (world (t_net t)) in
    (r, mkTerminal (mkNet w (trace (t_net t))) (stdin t)
          (deletions t ++ [(domain, record_id)])).

(** [input(prompt)]. *)
Definition input : M (Terminal W) string :=
  fun t =>
    match stdin t with
    | [] => (inl (OtherException "EOFError"), t)
    | line :: rest => (inr line, mkTerminal (t_net t) rest (deletions t))
    end.

Definition lift_terminal {A} (c : M (Net W) A) : M (Terminal W) A :=
  fun t =>
    let '(r, n) := c (t_net t) in
    (r, mkTerminal n (stdin t) (deletions t)).

(** The [for record in delete_records] loop. *)
Fixpoint delete_loop (domain : string) (delete_records : list DNSRecord)
  : M (Terminal W) unit :=
  match delete_records with
  | [] => ret tt
  | record :: rest =>
      catch_all (delete_dns_record domain (r_id record)) (fun _ => ret tt) ;;;
      delete_loop domain rest
  end.

(** [cleanup_dns.main] on a loaded configuration. *)
Definition cleanup_main (config : Config) : M (Terminal W) unit :=
  match domains config with
  | [] => raise (OtherException "IndexError")
  | first :: _ =>
      let domain := dc_domain first in
      records <- lift_terminal (list_dns_records E domain) ;;
      let a_records := root_a_records records in
      if (length a_records <=? 1)%nat then ret tt
      else
        fun t =>
          match read_choice (length a_records) (stdin t) with
          | (Cancelled, rest) => (inr tt, mkTerminal (t_net t) rest (deletions t))
          | (EndOfInput, rest) =>
              (inl (OtherException "EOFError"),
               mkTerminal (t_net t) rest (deletions t))
          | (Chosen choice_num, rest) =>
              match a_records !! Z.to_nat choice_num with
              | None =>
                  (inl (OtherException "IndexError"),
                   mkTerminal (t_net t) rest (deletions t))
              | Some keep_record =>
                  let delete_records :=
                    List.filter
                      (fun r => negb (bool_decide (r_id r = r_id keep_record)))
                      a_records in
                  (confirm <- input ;;
                   if negb (bool_decide (lower (strip confirm) = "yes")) then ret tt
                   else delete_loop domain delete_records)
                    (mkTerminal (t_net t) rest (deletions t))
              end
          end
  end.

End Cleanup.

(** The in-memory provider's deletion. *)
Definition mem_delete (domain record_id : string) (w : MemWorld)
  : (exn + unit) * MemWorld :=
  match zones w !! domain with
  | None => (inl (VultrAPIError "VULTR API error: Invalid domain"), w)
  | Some records =>
      if existsb (fun r => bool_decide (r_id r = record_id)) records
      then (inr tt,
            mkMemWorld
              (<[domain :=
                   List.filter (fun r => negb (bool_decide (r_id r = record_id)))
                     records]> (zones w))
              (refused_ttls w) (echo w) (clock w))
      else (inl (VultrAPIError "VULTR API error: Invalid record"), w)
  end.

(** A zone with three address records for the root. *)
Definition duplicates_world : MemWorld :=
  mkMemWorld
    {[ "example.com" :=
         [ mkDNSRecord "d1" "A" "" "198.51.100.1" 300 None;
           mkDNSRecord "d2" "NS" "" "ns1.vultr.com" 300 None;
           mkDNSRecord "d3" "A" "" "198.51.100.3" 300 None;
           mkDNSRecord "d4" "A" "www" "198.51.100.4" 300 None;
           mkDNSRecord "d5" "A" "" "198.51.100.5" 300 None ] ]}
    [] ∅ 1000.

(** ** [config.py] *)

(** A value as [json.load] returns it; a float is kept as its text. *)
#[warnings="-register-all"]
Inductive Py : Type :=
| PyNone
| PyBool (b : bool)
| PyInt (n : Z)
| PyFloat (text : string)
| PyStr (s : string)
| PyList (items : list Py)
| PyDict (entries : gmap string Py).

(** A [DomainConfig] and a [Config] object as the interpreter holds them: a
    dataclass checks no types, so a field holds whatever value it was
    given. *)
Record DomainConfigObj : Type := mkDomainConfigObj {
  o_domain : Py;
  o_subdomain : Py;
  o_record_type : Py;
  o_ttl : Py
}.

Record ConfigObj : Type := mkConfigObj {
  o_api_key : Py;
  o_domains : list DomainConfigObj;
  o_check_interval : Py;
  o_retry_interval : Py;
  o_max_retries : Py
}.

(** What [Config.from_dict] raises. *)
Inductive ConfigError : Type :=
| KeyError (key : string)
| TypeError
| AttributeError.

(** [for d in v]: the items of a list, the characters of a string, the
    keys of a dict (in an order of the model's own); any other value is not
    iterable. *)
Definition py_iter (v : Py) : ConfigError + list Py :=
  match v with
  | PyList items => inr items
  | PyStr s => inr ((fun c => PyStr (String c "")) <$> list_ascii_of_string s)
  | PyDict entries => inr ((fun kv => PyStr (fst kv)) <$> map_to_list entries)
  | _ => inl TypeError
  end.

Definition domain_config_fields : gset string :=
  {[ "domain"; "subdomain"; "record_type"; "ttl" ]}.

(** [DomainConfig] called with the entries of [d] as keyword arguments: [d]
    must be a mapping, every key a field, and the two fields without a
    default present. *)
Definition domain_config_from (d : Py) : ConfigError + DomainConfigObj :=
  match d with
  | PyDict kw =>
      if decide (dom kw ⊆ domain_config_fields) then
        match kw !! "domain", kw !! "subdomain" with
        | Some domain, Some subdomain =>
            inr (mkDomainConfigObj domain subdomain
                   (default (PyStr "A") (kw !! "record_type"))
                   (default (PyInt 300) (kw !! "ttl")))
        | _, _ => inl TypeError
        end
      else inl TypeError
  | _ => inl TypeError
  end.

(** The list comprehension of [from_dict]: one [DomainConfig] per item. *)
Fixpoint domain_configs_from (items : list Py) : ConfigError + list DomainConfigObj :=
  match items with
  | [] => inr []
  | d :: rest =>
      match domain_config_from d with
      | inl e => inl e
      | inr domain_config =>
          match domain_configs_from rest with
          | inl e => inl e
          | inr domain_configs => inr (domain_config :: domain_configs)
          end
      end
  end.

(** [Config.from_dict]. *)
Definition from_dict (data : Py) : ConfigError + ConfigObj :=
  match data with
  | PyDict data =>
      match py_iter (default (PyList []) (data !! "domains")) with
      | inl e => inl e
      | inr items =>
          match domain_configs_from items with
          | inl e => inl e
          | inr domain_configs =>
              match data !! "api_key" with
              | None => inl (KeyError "api_key")
              | Some key =>
                  inr (mkConfigObj key domain_configs
                         (default (PyInt 300) (data !! "check_interval"))
                         (default (PyInt 60) (data !! "retry_interval"))
                         (default (PyInt 3) (data !! "max_retries")))
              end
          end
      end
  | _ => inl AttributeError
  end.

(** [dataclasses.asdict] on a [DomainConfig]. *)
Definition asdict (domain_config : DomainConfigObj) : Py :=
  PyDict
    (<["ttl" := o_ttl domain_config]>
       (<["record_type" := o_record_type domain_config]>
          (<["subdomain" := o_subdomain domain_config]>
             (<["domain" := o_domain domain_config]> ∅)))).

(** [Config.to_dict]. *)
Definition to_dict (config : ConfigObj) : Py :=
  PyDict
    (<["max_retries" := o_max_retries config]>
       (<["retry_interval" := o_retry_interval config]>
          (<["check_interval" := o_check_interval config]>
             (<["domains" := PyList (asdict <$> o_domains config)]>
                (<["api_key" := o_api_key config]> ∅))))).

(** A domain entry that [DomainConfig] accepts as keyword arguments, and
    the object it makes of it. *)
Definition entry_makes (d : Py) (domain_config : DomainConfigObj) : Prop :=
  exists kw : gmap string Py,
    d = PyDict kw /\
    (forall key, is_Some (kw !! key) ->
                 key ∈ ["domain"; "subdomain"; "record_type"; "ttl"]) /\
    kw !! "domain" = Some (o_domain domain_config) /\
    kw !! "subdomain" = Some (o_subdomain domain_config) /\
    o_record_type domain_config = default (PyStr "A") (kw !! "record_type") /\
    o_ttl domain_config = default (PyInt 300) (kw !! "ttl").

(** * Properties *)

(** ** Python helpers *)

(** [List.find] stops at the first element that passes the test. *)
Lemma find_first_match {A} (p : A -> bool) (l : list A) :
  match List.find p l with
  | Some x =>
      exists before after,
        l = before ++ x :: after /\ p x = true /\
        Forall (fun y => p y = false) before
  | None => Forall (fun y => p y = false) l
  end.
Proof.
  induction l as [|a l IH]; simpl.
  - constructor.
  - destruct (p a) eqn:Hpa.
    + exists [], l. repeat split; [assumption | constructor].
    + destruct (List.find p l) as [x|].
      * destruct IH as (before & after & -> & Hx & Hbefore).
        exists (a :: before), after. repeat split; [assumption|].
        constructor; assumption.
      * constructor; assumption.
Qed.

Lemma truthy_empty_iff (s : string) : truthy s = false <-> s = "".
Proof.
  unfold truthy. destruct (bool_decide_reflect (s = "")); simpl; split;
    intros; congruence.
Qed.

Section ClientProperties.

Context {W : Type} (E : Environment W).

(** ** The matcher *)

Lemma record_matches_iff (record_type : string) (names : list string) (r : DNSRecord) :
  record_matches record_type names r = true <->
  r_type r = record_type /\ r_name r ∈ names.
Proof.
  unfold record_matches. rewrite andb_true_iff, !bool_decide_eq_true. tauto.
Qed.

Lemma record_matches_false_iff (record_type : string) (names : list string)
    (r : DNSRecord) :
  record_matches record_type names r = false <->
  ~ (r_type r = record_type /\ r_name r ∈ names).
Proof.
  rewrite <- record_matches_iff. destruct (record_matches record_type names r);
    split; intros; congruence.
Qed.

(** [find_dns_record] is one listing followed by the search. *)
Lemma find_dns_record_run (domain subdomain record_type : string) (n : Net W) :
  find_dns_record E domain subdomain record_type n =
  let '(r, w) := api_list E domain (world n) in
  (match r with
   | inl e => inl e
   | inr records =>
       inr (List.find (record_matches record_type (target_names domain subdomain))
              records)
   end,
   mkNet w (trace n ++ [EvList domain])).
Proof.
  unfold find_dns_record, bind, list_dns_records, call, ret.
  destruct (api_list E domain (world n)) as [[e|records] w]; reflexivity.
Qed.

(** C1.  Given the provider's listing, [find_dns_record] returns the first
    listed record whose kind is the requested kind and whose name is one of
    the candidate names: the subdomain, the subdomain followed by a dot and
    the domain, or the subdomain followed by a dot, for a subdomain that is
    not empty; the empty name, the at sign, the domain, or the domain
    followed by a dot, for the root.  It returns nothing exactly when no
    listed record qualifies.  For the subdomain blog of example.com, a
    record named bloggy is never the one returned. *)
Theorem find_dns_record_first_candidate
    (domain subdomain record_type : string) (n : Net W)
    (records : list DNSRecord) (w : W) :
  api_list E domain (world n) = (inr records, w) ->
  let candidates :=
    if decide (subdomain = "")
    then [""; "@"; domain; domain +:+ "."]
    else [subdomain; subdomain +:+ "." +:+ domain; subdomain +:+ "."] in
  let qualifies (r : DNSRecord) := r_type r = record_type /\ r_name r ∈ candidates in
  exists found,
    find_dns_record E domain subdomain record_type n
    = (inr found, mkNet w (trace n ++ [EvList domain])) /\
    match found with
    | Some r =>
        exists before after,
          records = before ++ r :: after /\ qualifies r /\
          forall x, x ∈ before -> ~ qualifies x
    | None => forall x, x ∈ records -> ~ qualifies x
    end /\
    (subdomain = "blog" -> domain = "example.com" ->
     forall r, found = Some r -> r_name r <> "bloggy").
Proof.
  intros Hlist candidates qualifies.
  assert (Hnames : target_names domain subdomain = candidates).
  { unfold target_names, candidates, truthy.
    destruct (decide (subdomain = "")) as [->|Hne].
    - reflexivity.
    - rewrite bool_decide_eq_false_2 by assumption. reflexivity. }
  rewrite find_dns_record_run, Hlist, Hnames.
  eexists. split; [reflexivity|].
  pose proof (find_first_match (record_matches record_type candidates) records) as Hfind.
  destruct (List.find (record_matches record_type candidates) records) as [r|].
  - destruct Hfind as (before & after & Heq & Hr & Hbefore).
    apply record_matches_iff in Hr. split.
    + exists before, after. repeat split; try apply Hr; [assumption|].
      intros x Hx. rewrite Forall_forall in Hbefore.
      apply record_matches_false_iff, Hbefore, Hx.
    + intros -> -> r' [= <-] Hname. destruct Hr as [_ Hin].
      rewrite Hname in Hin. subst candidates. simpl in Hin.
      repeat (apply elem_of_cons in Hin as [Hin|Hin]; [discriminate|]).
      inversion Hin.
  - split.
    + intros x Hx. rewrite Forall_forall in Hfind.
      apply record_matches_false_iff, Hfind, Hx.
    + intros _ _ r [=].
Qed.

End ClientProperties.

(** On the example zone the [blog] target is matched by the record named
    [blog], although a record named [bloggy] of the same kind is listed
    before it. *)
Lemma find_dns_record_first_candidate_witness :
  api_list mem_env "example.com" example_world = (inr example_zone, example_world) /\
  exists found,
    find_dns_record mem_env "example.com" "blog" "A" (mkNet example_world [])
    = (inr found, mkNet example_world [EvList "example.com"]) /\
    r_id <$> found = Some "r4".
Proof.
  split; [reflexivity|].
  destruct (find_dns_record_first_candidate mem_env "example.com" "blog" "A"
              (mkNet example_world []) example_zone example_world eq_refl)
    as (found & Hrun & _ & _).
  exists found. split; [exact Hrun|].
  apply (f_equal fst) in Hrun. vm_compute in Hrun.
  injection Hrun as <-. reflexivity.
Defined.

Section Reconcile.

Context {W : Type} (E : Environment W).

(** ** Reconciliation of one target *)

Lemma call_run {A} (ev : Event) (f : W -> (exn + A) * W) (n : Net W) :
  call ev f n = (fst (f (world n)), mkNet (snd (f (world n))) (trace n ++ [ev])).
Proof. unfold call. destruct (f (world n)); reflexivity. Qed.

(** A patch of the address alone: the body holds the key [data] only. *)
Lemma update_dns_record_data_only (domain record_id ip_address : string) (n : Net W) :
  update_dns_record E domain record_id (Some ip_address) None None None n =
  call (EvPatch domain record_id {[ "data" := JStr ip_address ]})
    (api_patch E domain record_id {[ "data" := JStr ip_address ]}) n.
Proof.
  unfold update_dns_record. rewrite insert_empty.
  destruct (decide (({[ "data" := JStr ip_address ]} : Payload) = ∅)) as [Hempty|_].
  - exfalso. revert Hempty. apply map_non_empty_singleton.
  - reflexivity.
Qed.

(** With an existing record, reconciliation compares the addresses and
    patches when they differ. *)
Lemma update_or_create_found (domain subdomain ip_address record_type : string)
    (ttl : Z) (n n1 : Net W) (existing : DNSRecord) :
  find_dns_record E domain subdomain record_type n = (inr (Some existing), n1) ->
  update_or_create_dns_record E domain subdomain ip_address record_type ttl n =
  if bool_decide (r_data existing = ip_address) then (inr tt, n1)
  else update_dns_record E domain (r_id existing) (Some ip_address) None None None n1.
Proof.
  intros Hfind. unfold update_or_create_dns_record, bind at 1. rewrite Hfind.
  destruct (bool_decide (r_data existing = ip_address)); reflexivity.
Qed.

Lemma find_dns_record_trace (domain subdomain record_type : string) (n n1 : Net W)
    (r : exn + option DNSRecord) :
  find_dns_record E domain subdomain record_type n = (r, n1) ->
  trace n1 = trace n ++ [EvList domain].
Proof.
  rewrite find_dns_record_run. destruct (api_list E domain (world n)) as [res w].
  intros [= _ <-]. reflexivity.
Qed.

(** C5.  Reconciliation is idempotent.  When the lookup returns a record
    whose value is already the desired address, the call succeeds and adds
    nothing to the trace but the lookup's listing: no update and no create.
    Hence two calls in a row with the same address, the first finding a
    record with another value and patching it, the second finding the
    record with the new value, issue exactly one update between them. *)
Theorem reconcile_idempotent (domain subdomain ip_address record_type : string)
    (ttl : Z) :
  (forall (n n1 : Net W) (existing : DNSRecord),
     find_dns_record E domain subdomain record_type n = (inr (Some existing), n1) ->
     r_data existing = ip_address ->
     update_or_create_dns_record E domain subdomain ip_address record_type ttl n
     = (inr tt, n1) /\
     trace n1 = trace n ++ [EvList domain]) /\
  (forall (n n1 n3 : Net W) (existing updated : DNSRecord) (w2 : W),
     find_dns_record E domain subdomain record_type n = (inr (Some existing), n1) ->
     r_data existing <> ip_address ->
     api_patch E domain (r_id existing) {[ "data" := JStr ip_address ]} (world n1)
     = (inr tt, w2) ->
     find_dns_record E domain subdomain record_type
       (mkNet w2 (trace n1 ++ [EvPatch domain (r_id existing)
                                  {[ "data" := JStr ip_address ]}]))
     = (inr (Some updated), n3) ->
     r_data updated = ip_address ->
     (update_or_create_dns_record E domain subdomain ip_address record_type ttl ;;;
      update_or_create_dns_record E domain subdomain ip_address record_type ttl) n
     = (inr tt, n3) /\
     trace n3 = trace n ++ [EvList domain;
                            EvPatch domain (r_id existing)
                              {[ "data" := JStr ip_address ]};
                            EvList domain] /\
     length (List.filter is_update_call
               [EvList domain;
                EvPatch domain (r_id existing) {[ "data" := JStr ip_address ]};
                EvList domain]) = 1%nat).
Proof.
  split.
  - intros n n1 existing Hfind Hsame.
    rewrite (update_or_create_found _ _ _ _ _ _ _ _ Hfind).
    rewrite bool_decide_eq_true_2 by assumption.
    split; [reflexivity|]. eapply find_dns_record_trace, Hfind.
  - intros n n1 n3 existing updated w2 Hfind Hdiff Hpatch Hfind2 Hsame.
    unfold bind at 1.
    rewrite (update_or_create_found _ _ _ _ _ _ _ _ Hfind).
    rewrite bool_decide_eq_false_2 by assumption.
    rewrite update_dns_record_data_only, call_run, Hpatch. simpl.
    rewrite (update_or_create_found _ _ _ _ _ _ _ _ Hfind2).
    rewrite bool_decide_eq_true_2 by assumption.
    split; [reflexivity|]. split; [|reflexivity].
    rewrite (find_dns_record_trace _ _ _ _ _ _ Hfind2). simpl.
    rewrite (find_dns_record_trace _ _ _ _ _ _ Hfind).
    rewrite <- !app_assoc. reflexivity.
Qed.

(** C7.  When the lookup returns a record whose value differs from the
    desired address, what follows the lookup is one patch whose body is the
    new value under the key data and nothing else: no ttl, name, type or
    priority is sent, whatever TTL is configured, and the call ends as the
    provider's answer to that patch does. *)
Theorem reconcile_update_sends_value_only
    (domain subdomain ip_address record_type : string) (ttl : Z)
    (n n1 : Net W) (existing : DNSRecord) :
  find_dns_record E domain subdomain record_type n = (inr (Some existing), n1) ->
  r_data existing <> ip_address ->
  exists payload : Payload,
    update_or_create_dns_record E domain subdomain ip_address record_type ttl n
    = (fst (api_patch E domain (r_id existing) payload (world n1)),
       mkNet (snd (api_patch E domain (r_id existing) payload (world n1)))
         (trace n1 ++ [EvPatch domain (r_id existing) payload])) /\
    payload !! "data" = Some (JStr ip_address) /\
    (forall key, key <> "data" -> payload !! key = None).
Proof.
  intros Hfind Hdiff. exists {[ "data" := JStr ip_address ]}.
  rewrite (update_or_create_found _ _ _ _ _ _ _ _ Hfind).
  rewrite bool_decide_eq_false_2 by assumption.
  rewrite update_dns_record_data_only, call_run.
  split; [reflexivity|]. split.
  - apply lookup_singleton_eq.
  - intros key Hkey. apply lookup_singleton_ne. congruence.
Qed.

Lemma create_dns_record_run (domain name record_type data : string) (ttl : Z)
    (n : Net W) :
  create_dns_record E domain name record_type data ttl None n =
  call (EvCreate domain (creation_payload name record_type data ttl))
    (api_create E domain (creation_payload name record_type data ttl)) n.
Proof. reflexivity. Qed.

(** One creation attempt, its result dropped. *)
Lemma create_attempt_run (domain name record_type data : string) (ttl : Z)
    (n : Net W) :
  (create_dns_record E domain name record_type data ttl None ;;; ret tt) n =
  let payload := creation_payload name record_type data ttl in
  (match fst (api_create E domain payload (world n)) with
   | inl e => inl e
   | inr _ => inr tt
   end,
   mkNet (snd (api_create E domain payload (world n)))
     (trace n ++ [EvCreate domain payload])).
Proof.
  unfold bind. rewrite create_dns_record_run, call_run. simpl.
  destruct (fst (api_create E domain _ (world n))); reflexivity.
Qed.

(** The trace only grows through the fallback loop. *)
Lemma retry_common_ttls_trace (domain name record_type data : string) (ttl : Z)
    (ttl_error : string) (ttls : list Z) (n : Net W) :
  exists more,
    trace (snd (retry_common_ttls E domain name record_type data ttl ttl_error ttls n))
    = trace n ++ more.
Proof.
  revert n. induction ttls as [|try_ttl rest IH]; intros n; simpl.
  - exists []. symmetry. apply app_nil_r.
  - destruct (negb (try_ttl =? ttl)%Z); [|apply IH].
    unfold catch_api. rewrite create_attempt_run. simpl.
    destruct (fst (api_create E domain _ (world n))) as [[msg|msg]|created]; simpl.
    + destruct (IH (mkNet (snd (api_create E domain
                  (creation_payload name record_type data try_ttl) (world n)))
                  (trace n ++ [EvCreate domain
                     (creation_payload name record_type data try_ttl)])))
        as [more Hmore].
      rewrite Hmore. simpl. rewrite <- app_assoc. eexists. reflexivity.
    + eexists. reflexivity.
    + eexists. reflexivity.
Qed.

Lemma create_after_error_trace (domain name record_type data : string) (ttl : Z)
    (n : Net W) :
  exists more,
    trace (snd (create_after_error E domain name record_type data ttl n))
    = trace n ++ more.
Proof.
  unfold create_after_error, catch_api. rewrite create_attempt_run.
  cbv zeta.
  destruct (api_create E domain (creation_payload name record_type data ttl)
              (world n)) as [[[msg|msg]|created] w1]; cbn [fst snd].
  - destruct (str_in "TTL" msg).
    + destruct (retry_common_ttls_trace domain name record_type data ttl msg
                  common_ttls
                  (mkNet w1 (trace n ++ [EvCreate domain
                     (creation_payload name record_type data ttl)])))
        as [more Hmore].
      rewrite Hmore. cbn [trace]. rewrite <- app_assoc. eexists. reflexivity.
    + eexists. reflexivity.
  - eexists. reflexivity.
  - eexists. reflexivity.
Qed.

Lemma domain_ttl_first (all_records : list DNSRecord) (ttl : Z) :
  domain_ttl all_records ttl =
  match all_records with
  | first :: _ => r_ttl first
  | [] => ttl
  end.
Proof.
  destruct all_records as [|first rest]; simpl; [reflexivity|].
  destruct (Z.eqb_spec ttl (r_ttl first)); simpl; congruence.
Qed.

(** Without an existing record and with the listing at hand, reconciliation
    is a creation attempt at the domain's TTL under the handler. *)
Lemma update_or_create_not_found (domain subdomain ip_address record_type : string)
    (ttl : Z) (n n1 : Net W) (all_records : list DNSRecord) (w2 : W) :
  find_dns_record E domain subdomain record_type n = (inr None, n1) ->
  api_list E domain (world n1) = (inr all_records, w2) ->
  let name := if truthy subdomain then subdomain else "@" in
  update_or_create_dns_record E domain subdomain ip_address record_type ttl n =
  catch_api
    (create_dns_record E domain name record_type ip_address
       (domain_ttl all_records ttl) None ;;; ret tt)
    (fun _ =>
       create_after_error E domain name record_type ip_address
         (domain_ttl all_records ttl))
    (mkNet w2 (trace n1 ++ [EvList domain])).
Proof.
  intros Hfind Hlist name. unfold update_or_create_dns_record, bind at 1.
  rewrite Hfind. unfold bind at 1, attempt_api, list_dns_records.
  rewrite call_run, Hlist. reflexivity.
Qed.

(** C8.  When the lookup finds no record and the listing that follows
    succeeds, the creation request that comes next carries the TTL of the
    first listed record, or the configured TTL when the listing is empty,
    together with the name (the subdomain, or the at sign for the root), the
    kind and the address.  If the provider accepts that request, it is the
    only creation and the call succeeds. *)
Theorem reconcile_create_uses_domain_ttl
    (domain subdomain ip_address record_type : string) (ttl : Z)
    (n n1 : Net W) (all_records : list DNSRecord) (w2 : W) :
  find_dns_record E domain subdomain record_type n = (inr None, n1) ->
  api_list E domain (world n1) = (inr all_records, w2) ->
  let effective_ttl :=
    match all_records with
    | first :: _ => r_ttl first
    | [] => ttl
    end in
  let name := if decide (subdomain = "") then "@" else subdomain in
  exists (payload : Payload) (more : list Event),
    trace (snd (update_or_create_dns_record E domain subdomain ip_address
                  record_type ttl n))
    = trace n1 ++ [EvList domain; EvCreate domain payload] ++ more /\
    payload !! "ttl" = Some (JInt effective_ttl) /\
    payload !! "name" = Some (JStr name) /\
    payload !! "type" = Some (JStr record_type) /\
    payload !! "data" = Some (JStr ip_address) /\
    (forall (created : DNSRecord) (w3 : W),
       api_create E domain payload w2 = (inr created, w3) ->
       update_or_create_dns_record E domain subdomain ip_address record_type ttl n
       = (inr tt, mkNet w3 (trace n1 ++ [EvList domain; EvCreate domain payload]))).
Proof.
  intros Hfind Hlist effective_ttl name.
  rewrite (update_or_create_not_found _ _ _ _ _ _ _ _ _ Hfind Hlist).
  rewrite domain_ttl_first. fold effective_ttl.
  assert (Hname : (if truthy subdomain then subdomain else "@") = name).
  { unfold name, truthy. destruct (decide (subdomain = "")) as [->|Hne].
    - reflexivity.
    - rewrite bool_decide_eq_false_2 by assumption. reflexivity. }
  rewrite Hname.
  exists (creation_payload name record_type ip_address effective_ttl).
  unfold catch_api. rewrite create_attempt_run. simpl.
  destruct (api_create E domain
              (creation_payload name record_type ip_address effective_ttl) w2)
    as [[[msg|msg]|created] w3] eqn:Hcreate; simpl.
  - destruct (create_after_error_trace domain name record_type ip_address
                effective_ttl
                (mkNet w3 ((trace n1 ++ [EvList domain]) ++
                           [EvCreate domain
                              (creation_payload name record_type ip_address
                                 effective_ttl)])))
      as [more Hmore].
    exists more. rewrite Hmore. simpl. rewrite <- !app_assoc. simpl.
    repeat split; try reflexivity. intros created w3' [=].
  - exists []. rewrite <- !app_assoc. simpl.
    repeat split; try reflexivity. intros created w3' [=].
  - exists []. rewrite <- !app_assoc. simpl.
    repeat split; try reflexivity. intros created' w3' [= _ <-]. reflexivity.
Qed.

End Reconcile.

(** Two reconciliations of the [blog] target in a row on the example zone:
    both succeed and a single patch is sent. *)
Lemma reconcile_idempotent_witness :
  fst ((update_or_create_dns_record mem_env "example.com" "blog" "203.0.113.7" "A" 300 ;;;
        update_or_create_dns_record mem_env "example.com" "blog" "203.0.113.7" "A" 300)
         (mkNet example_world []))
  = inr tt /\
  List.filter is_update_call
    (trace (snd ((update_or_create_dns_record mem_env "example.com" "blog"
                    "203.0.113.7" "A" 300 ;;;
                  update_or_create_dns_record mem_env "example.com" "blog"
                    "203.0.113.7" "A" 300)
                   (mkNet example_world []))))
  = [EvPatch "example.com" "r4" {[ "data" := JStr "203.0.113.7" ]}].
Proof.
  destruct (reconcile_idempotent mem_env "example.com" "blog" "203.0.113.7" "A" 300)
    as [_ Htwice].
  edestruct (Htwice (mkNet example_world [])) as (Hrun & Htrace & _).
  - reflexivity.
  - discriminate.
  - reflexivity.
  - reflexivity.
  - reflexivity.
  - rewrite Hrun. split; [reflexivity|]. cbn [snd]. rewrite Htrace. reflexivity.
Defined.

(** Reconciling the [blog] target of the example zone sends the new address
    and leaves the TTL of 1800 in place although 300 is configured. *)
Lemma reconcile_update_sends_value_only_witness :
  r_data <$> (zones (world (snd (update_or_create_dns_record mem_env "example.com"
                                   "blog" "203.0.113.7" "A" 300
                                   (mkNet example_world []))))
              !! "example.com" ≫= (.!! 3%nat))
  = Some "203.0.113.7" /\
  r_ttl <$> (zones (world (snd (update_or_create_dns_record mem_env "example.com"
                                  "blog" "203.0.113.7" "A" 300
                                  (mkNet example_world []))))
             !! "example.com" ≫= (.!! 3%nat))
  = Some 1800 /\
  exists payload : Payload,
    trace (snd (update_or_create_dns_record mem_env "example.com" "blog"
                  "203.0.113.7" "A" 300 (mkNet example_world [])))
    = [EvList "example.com"; EvPatch "example.com" "r4" payload] /\
    payload !! "ttl" = None.
Proof.
  split; [reflexivity|]. split; [reflexivity|].
  edestruct (reconcile_update_sends_value_only mem_env "example.com" "blog"
               "203.0.113.7" "A" 300 (mkNet example_world []))
    as (payload & Hrun & _ & Hother).
  - reflexivity.
  - discriminate.
  - exists payload. rewrite Hrun. split; [reflexivity|].
    apply Hother. discriminate.
Defined.

(** Creating the missing [www] record in the example zone: the request
    carries the TTL of the first listed record, 300, not the configured
    7200. *)
Lemma reconcile_create_uses_domain_ttl_witness :
  exists payload : Payload,
    trace (snd (update_or_create_dns_record mem_env "example.com" "www"
                  "203.0.113.7" "A" 7200 (mkNet example_world [])))
    = [EvList "example.com"; EvList "example.com"; EvCreate "example.com" payload] /\
    payload !! "ttl" = Some (JInt 300).
Proof.
  edestruct (reconcile_create_uses_domain_ttl mem_env "example.com" "www"
               "203.0.113.7" "A" 7200 (mkNet example_world []))
    as (payload & more & Htrace & Httl & _ & _ & _ & Hone).
  - reflexivity.
  - reflexivity.
  - exists payload. split; [|exact Httl].
    edestruct (mem_create "example.com" payload example_world)
      as [[e|created] w3] eqn:Hcreate.
    + exfalso. unfold mem_create in Hcreate.
      change (zones example_world !! "example.com") with (Some example_zone) in Hcreate.
      cbv zeta in Hcreate.
      change (refused_ttls example_world) with (@nil Z) in Hcreate.
      rewrite bool_decide_eq_false_2 in Hcreate by apply not_elem_of_nil.
      discriminate.
    + rewrite (Hone created w3 Hcreate). reflexivity.
Defined.

Section TTLFallback.

Context {W : Type} (E : Environment W).

(** When the creation inside the [try] block raises a provider error, the
    handler's first step is the same creation request once more, at the TTL
    that was just refused. *)
Lemma reconcile_create_error_repeats_request
    (domain subdomain ip_address record_type : string) (ttl : Z)
    (n n1 : Net W) (all_records : list DNSRecord) (w2 w3 : W) (msg : string) :
  find_dns_record E domain subdomain record_type n = (inr None, n1) ->
  api_list E domain (world n1) = (inr all_records, w2) ->
  let name := if truthy subdomain then subdomain else "@" in
  let payload :=
    creation_payload name record_type ip_address (domain_ttl all_records ttl) in
  api_create E domain payload w2 = (inl (VultrAPIError msg), w3) ->
  exists more,
    trace (snd (update_or_create_dns_record E domain subdomain ip_address
                  record_type ttl n))
    = trace n1 ++ [EvList domain; EvCreate domain payload; EvCreate domain payload]
      ++ more.
Proof.
  intros Hfind Hlist name payload Hcreate.
  rewrite (update_or_create_not_found E _ _ _ _ _ _ _ _ _ Hfind Hlist).
  fold name. unfold catch_api at 1. rewrite create_attempt_run. cbv zeta.
  fold payload. cbn [world trace]. rewrite Hcreate. cbn [fst snd].
  unfold create_after_error, catch_api. rewrite create_attempt_run. cbv zeta.
  fold payload. cbn [world trace].
  destruct (api_create E domain payload w3) as [[[msg'|msg']|created] w4];
    cbn [fst snd].
  - destruct (str_in "TTL" msg').
    + destruct (retry_common_ttls_trace E domain name record_type ip_address
                  (domain_ttl all_records ttl) msg' common_ttls
                  (mkNet w4 (((trace n1 ++ [EvList domain]) ++
                              [EvCreate domain payload]) ++
                             [EvCreate domain payload])))
        as [more Hmore].
      exists more. rewrite Hmore. cbn [trace]. rewrite <- !app_assoc. reflexivity.
    + exists []. cbn [snd trace]. rewrite <- !app_assoc. reflexivity.
  - exists []. cbn [trace]. rewrite <- !app_assoc. reflexivity.
  - exists []. cbn [trace]. rewrite <- !app_assoc. reflexivity.
Qed.

End TTLFallback.

(** C2, at the failing input.  The zone has no record, 300 is configured and
    the provider refuses a TTL of 300 with a message that names the TTL.
    Reconciliation ends well, and the creation requests it sent carry the
    TTLs 300, 300 and 3600: the refused TTL is tried a second time before
    the fallback list is consulted. *)
Theorem ttl_fallback_repeats_refused_ttl :
  fst (mem_create "example.com" (creation_payload "blog" "A" "203.0.113.7" 300)
         strict_ttl_world)
  = inl (VultrAPIError "VULTR API error: Invalid TTL") /\
  fst (update_or_create_dns_record mem_env "example.com" "blog" "203.0.113.7" "A" 300
         (mkNet strict_ttl_world []))
  = inr tt /\
  created_ttls
    (trace (snd (update_or_create_dns_record mem_env "example.com" "blog"
                   "203.0.113.7" "A" 300 (mkNet strict_ttl_world []))))
  = [Some 300; Some 300; Some 3600].
Proof.
  split; [|split].
  - reflexivity.
  - vm_compute. reflexivity.
  - vm_compute. reflexivity.
Qed.

Section Validator.

Context {W : Type} (E : Environment W).

(** ** The address validator *)

Lemma octets_in_range_iff (parts : list string) :
  octets_in_range parts = true <->
  Forall (fun part => exists num, python_int part = Some num /\ 0 <= num <= 255) parts.
Proof.
  induction parts as [|part rest IH]; simpl.
  - split; [constructor | reflexivity].
  - rewrite Forall_cons. destruct (python_int part) as [num|].
    + destruct (Z.ltb_spec num 0) as [Hneg|Hpos]; simpl.
      * split; [discriminate|]. intros [(k & Hk & Hrange) _]. simplify_eq. lia.
      * destruct (Z.gtb_spec num 255) as [Hbig|Hsmall].
        -- split; [discriminate|]. intros [(k & Hk & Hrange) _]. simplify_eq. lia.
        -- rewrite IH. split.
           ++ intros Hrest. split; [|assumption]. exists num. split; [reflexivity|lia].
           ++ intros [_ Hrest]. assumption.
    + split; [discriminate|]. intros [(k & Hk & _) _]. discriminate.
Qed.

(** What [_validate_ip] accepts: a string of four dot-separated parts each
    of which [int] reads as a number from 0 to 255, or a string of another
    number of parts that the C library reads as IPv6. *)
Lemma validate_ip_iff (ip : string) :
  _validate_ip E ip = true <->
  (length (split "." ip) = 4%nat /\
   Forall (fun part => exists num, python_int part = Some num /\ 0 <= num <= 255)
     (split "." ip)) \/
  (length (split "." ip) <> 4%nat /\ inet_pton6 E ip = true).
Proof.
  unfold _validate_ip.
  destruct (Nat.eqb_spec (length (split "." ip)) 4) as [Hfour|Hother].
  - rewrite octets_in_range_iff. tauto.
  - tauto.
Qed.

(** C6, at two failing inputs.  Whatever the C library accepts as IPv6, the
    validator rejects the IPv6 address that ends in a dotted quad, because
    the string splits into four parts at its dots and the first of them is
    no number; and it accepts a string whose parts are no decimal octets but
    are read by [int], which allows an underscore between digits and a
    sign. *)
Theorem validate_ip_misjudges :
  _validate_ip E "::ffff:1.2.3.4" = false /\
  _validate_ip E "1_0.0.0.+1" = true.
Proof. split; reflexivity. Qed.

End Validator.

Section Cycle.

Context {W : Type} (E : Environment W).

(** ** The resolver *)

(** The resolver never raises, asks the echo services only, and returns
    validated text. *)
Lemma get_public_ip_from_run (services : list string) (n : Net W) :
  exists (new_ip : option string) (n' : Net W) (urls : list string),
    get_public_ip_from E services n = (inr new_ip, n') /\
    trace n' = trace n ++ (EvHttpGet <$> urls) /\
    forall ip, new_ip = Some ip -> _validate_ip E ip = true.
Proof.
  revert n. induction services as [|service rest IH]; intros n; simpl.
  - exists None, n, []. repeat split; [symmetry; apply app_nil_r | discriminate].
  - unfold bind, attempt. rewrite call_run.
    set (n1 := mkNet (snd (http_get E service (world n)))
                 (trace n ++ [EvHttpGet service])).
    assert (Hrest : exists new_ip n' urls,
               get_public_ip_from E rest n1 = (inr new_ip, n') /\
               trace n' = trace n ++ (EvHttpGet <$> urls) /\
               forall ip, new_ip = Some ip -> _validate_ip E ip = true).
    { destruct (IH n1) as (new_ip & n' & urls & Hrun & Htrace & Hvalid).
      exists new_ip, n', (service :: urls). repeat split; [assumption| |assumption].
      rewrite Htrace. subst n1. cbn [trace]. rewrite <- app_assoc. reflexivity. }
    destruct (fst (http_get E service (world n))) as [e|text]; [exact Hrest|].
    destruct (_validate_ip E (strip text)) eqn:Hvalid; [|exact Hrest].
    exists (Some (strip text)), n1, [service]. repeat split.
    intros ip [= <-]. exact Hvalid.
Qed.

Lemma resolve_run (a : App W) :
  exists (new_ip : option string) (n' : Net W) (urls : list string),
    resolve E a = (inr new_ip, n') /\
    trace n' = trace (net a) ++ (EvHttpGet <$> urls).
Proof.
  destruct (get_public_ip_from_run IP_SERVICES
              (mkNet (snd (datetime_now E (world (net a)))) (trace (net a))))
    as (new_ip & n' & urls & Hrun & Htrace & _).
  exists new_ip, n', urls. split; assumption.
Qed.

(** ** Change detection *)

(** [check_ip_change] in one step: the check time is stamped, the resolver
    runs, and a resolved address is stored at once. *)
Lemma check_ip_change_run (a : App W) (new_ip : option string) (n2 : Net W) :
  resolve E a = (inr new_ip, n2) ->
  check_ip_change E a =
  (inr (match new_ip with
        | None => false
        | Some ip => negb (bool_decide (current_ip (monitor a) = Some ip))
        end, new_ip),
   mkApp n2
     (mkIPMonitor
        (match new_ip with
         | None => current_ip (monitor a)
         | Some ip => Some ip
         end)
        (Some (fst (datetime_now E (world (net a)))))
        (last_update (monitor a)))
     (update_history a)).
Proof.
  unfold resolve. intros Hresolve.
  unfold check_ip_change, bind, lift_net, now, get_monitor, set_monitor, ret.
  cbn [net monitor update_history].
  destruct (datetime_now E (world (net a))) as [t w1]. cbn [fst snd] in *.
  cbn [net monitor update_history current_ip last_check last_update].
  rewrite Hresolve. destruct new_ip as [ip|]; [|reflexivity].
  cbn [net monitor update_history current_ip last_check last_update].
  destruct (current_ip (monitor a)) as [old_ip|] eqn:Hcurrent.
  - destruct (decide (ip = old_ip)) as [->|Hne].
    + rewrite !bool_decide_eq_true_2 by reflexivity. reflexivity.
    + rewrite !bool_decide_eq_false_2 by congruence. reflexivity.
  - rewrite bool_decide_eq_false_2 by discriminate. reflexivity.
Qed.

(** ** One target and the loop over the targets *)

(** [_update_single_domain] never raises, and its outcome names its target. *)
Lemma update_single_domain_total (domain_config : DomainConfig) (ip_address : string)
    (n : Net W) :
  exists (result : DNSUpdateResult) (n' : Net W),
    _update_single_domain E domain_config ip_address n = (inr result, n') /\
    ur_domain result = dc_domain domain_config /\
    ur_subdomain result = dc_subdomain domain_config.
Proof.
  unfold _update_single_domain, catch_all.
  match goal with |- context [bind ?c ?k n] => destruct (bind c k n) as [[e|result] n'] eqn:Hbody end.
  - unfold bind, now, ret. destruct (datetime_now E (world n')) as [t w].
    eexists _, _. repeat split.
  - exists result, n'. split; [reflexivity|].
    unfold bind in Hbody.
    destruct (find_dns_record E _ _ _ n) as [[e|existing] n1]; [discriminate|].
    destruct (update_or_create_dns_record E _ _ _ _ _ n1) as [[e|[]] n2];
      [discriminate|].
    unfold now, ret in Hbody. destruct (datetime_now E (world n2)) as [t w].
    injection Hbody as <- _. split; reflexivity.
Qed.

(** A provider error while reconciling a target becomes a failed outcome
    that carries the error's message. *)
Lemma update_single_domain_provider_error (domain_config : DomainConfig)
    (ip_address msg : string) (n n' : Net W) :
  (find_dns_record E (dc_domain domain_config) (dc_subdomain domain_config)
     (dc_record_type domain_config) ;;;
   update_or_create_dns_record E (dc_domain domain_config)
     (dc_subdomain domain_config) ip_address (dc_record_type domain_config)
     (dc_ttl domain_config)) n = (inl (VultrAPIError msg), n') ->
  _update_single_domain E domain_config ip_address n =
  (inr (mkDNSUpdateResult (dc_domain domain_config) (dc_subdomain domain_config)
          false None None (Some msg) (fst (datetime_now E (world n')))),
   mkNet (snd (datetime_now E (world n'))) (trace n')).
Proof.
  intros Hraise. unfold _update_single_domain, catch_all.
  unfold bind in Hraise |- *.
  destruct (find_dns_record E _ _ _ n) as [[e|existing] n1].
  - injection Hraise as -> ->. unfold now, ret.
    destruct (datetime_now E (world n')) as [t w]. reflexivity.
  - destruct (update_or_create_dns_record E _ _ _ _ _ n1) as [[e|[]] n2];
      [|discriminate].
    injection Hraise as -> ->. unfold now, ret.
    destruct (datetime_now E (world n')) as [t w]. reflexivity.
Qed.

(** The loop runs to the end of the list whatever the outcomes are; it
    touches the monitor not at all and the history by appending. *)
Lemma update_domains_loop_run (n_domains : nat) (ip_address : string)
    (todo : list DomainConfig) (results : list DNSUpdateResult) (a : App W) :
  exists (new : list DNSUpdateResult) (a' : App W),
    update_domains_loop E n_domains ip_address todo results a
    = (inr (results ++ new), a') /\
    target_of <$> new = target_name <$> todo /\
    monitor a' = monitor a /\
    update_history a' = update_history a ++ new.
Proof.
  revert results a. induction todo as [|domain_config rest IH]; intros results a.
  - exists [], a. simpl. unfold ret. rewrite !app_nil_r. repeat split.
  - simpl. unfold bind at 1, lift_net at 1.
    destruct (update_single_domain_total domain_config ip_address (net a))
      as (result & n' & Hone & Hdomain & Hsub).
    rewrite Hone. unfold bind at 1, append_history.
    cbn [net monitor update_history].
    set (a1 := mkApp n' (monitor a) (update_history a ++ [result])).
    assert (Hpause : exists a2,
               (if (1 <? n_domains)%nat then lift_net (sleep 1) else ret tt) a1
               = (inr tt, a2) /\
               monitor a2 = monitor a /\
               update_history a2 = update_history a ++ [result]).
    { destruct (1 <? n_domains)%nat.
      - eexists. unfold lift_net, sleep. cbn. repeat split.
      - exists a1. repeat split. }
    destruct Hpause as (a2 & Hpause & Hmonitor & Hhistory).
    unfold bind at 1. rewrite Hpause.
    destruct (IH (results ++ [result]) a2) as (new & a' & Hrun & Htargets & Hm & Hh).
    exists (result :: new), a'. rewrite Hrun. repeat split.
    + rewrite <- app_assoc. reflexivity.
    + rewrite !fmap_cons, Htargets. unfold target_of at 1, target_name at 1.
      rewrite Hdomain, Hsub. reflexivity.
    + congruence.
    + rewrite Hh, Hhistory, <- app_assoc. reflexivity.
Qed.

Lemma update_all_domains_run (config : Config) (ip_address : string) (a : App W) :
  exists (results : list DNSUpdateResult) (a' : App W),
    update_all_domains E config ip_address a = (inr results, a') /\
    target_of <$> results = target_name <$> domains config /\
    monitor a' = monitor a /\
    update_history a' = update_history a ++ results.
Proof.
  unfold update_all_domains.
  destruct (update_domains_loop_run (length (domains config)) ip_address
              (domains config) [] a) as (new & a' & Hrun & Htargets & Hm & Hh).
  exists new, a'. repeat split; assumption.
Qed.

End Cycle.

Section CheckAndUpdate.

Context {W : Type} (E : Environment W).

(** ** The cycle *)

(** Counting the successes and comparing with the total is asking whether
    all succeeded. *)
Lemma success_count_all {A} (p : A -> bool) (l : list A) :
  (length (List.filter p l) =? length l)%nat = forallb p l.
Proof.
  assert (Hle : forall l', (length (List.filter p l') <= length l')%nat).
  { induction l' as [|x l' IH]; simpl; [lia|]. destruct (p x); simpl; lia. }
  induction l as [|x l IH]; simpl; [reflexivity|].
  destruct (p x); simpl; [exact IH|].
  apply Nat.eqb_neq. specialize (Hle l). lia.
Qed.

(** [check_and_update] once change detection has returned an address. *)
Lemma check_and_update_resolved (config : Config) (a a1 : App W) (changed : bool)
    (ip : string) :
  check_ip_change E a = (inr (changed, Some ip), a1) ->
  check_and_update E config a =
  if changed && truthy ip then
    match update_all_domains E config ip a1 with
    | (inr results, a2) =>
        if forallb ur_success results then
          (inr true,
           mkApp (mkNet (snd (datetime_now E (world (net a2)))) (trace (net a2)))
             (mkIPMonitor (current_ip (monitor a2)) (last_check (monitor a2))
                (Some (fst (datetime_now E (world (net a2))))))
             (update_history a2))
        else (inr false, a2)
    | (inl _, a2) => (inr false, a2)
    end
  else (inr true, a1).
Proof.
  intros Hcheck. unfold check_and_update, catch_all, bind at 1. rewrite Hcheck.
  destruct (changed && truthy ip); [|reflexivity].
  unfold bind at 1.
  destruct (update_all_domains E config ip a1) as [[e|results] a2]; [reflexivity|].
  rewrite success_count_all. destruct (forallb ur_success results).
  - unfold bind, lift_net, now, get_monitor, set_monitor, ret.
    destruct (datetime_now E (world (net a2))) as [t w]. reflexivity.
  - destruct (0 <? length (List.filter ur_success results))%nat; reflexivity.
Qed.

(** Change detection leaves the history and the time of the last update
    alone, and asks nothing of the provider. *)
Lemma check_ip_change_frame (a a1 : App W) (r : exn + bool * option string) :
  check_ip_change E a = (r, a1) ->
  update_history a1 = update_history a /\
  last_update (monitor a1) = last_update (monitor a) /\
  exists urls, trace (net a1) = trace (net a) ++ (EvHttpGet <$> urls).
Proof.
  destruct (resolve_run E a) as (new_ip & n2 & urls & Hresolve & Htrace).
  rewrite (check_ip_change_run E a new_ip n2 Hresolve). intros [= _ <-].
  repeat split. exists urls. exact Htrace.
Qed.

(** C3, as the code has it.  When the resolver returns no address,
    [check_and_update] returns true: the cycle is a no-op.  Nothing is asked
    of the provider (the trace grows by requests to the echo services
    only), the last-known address, the time of the last update and the
    history stay as they were, and only the time of the last check moves. *)
Theorem check_and_update_resolver_unavailable (config : Config) (a : App W)
    (n2 : Net W) :
  resolve E a = (inr None, n2) ->
  check_and_update E config a =
  (inr true,
   mkApp n2
     (mkIPMonitor (current_ip (monitor a))
        (Some (fst (datetime_now E (world (net a)))))
        (last_update (monitor a)))
     (update_history a)) /\
  exists new,
    trace n2 = trace (net a) ++ new /\
    Forall (fun ev => is_provider_call ev = false) new.
Proof.
  intros Hresolve. split.
  - unfold check_and_update, catch_all, bind at 1.
    rewrite (check_ip_change_run E a None n2 Hresolve). reflexivity.
  - destruct (resolve_run E a) as (new_ip & n' & urls & Hrun & Htrace).
    rewrite Hresolve in Hrun. injection Hrun as _ <-.
    exists (EvHttpGet <$> urls). split; [assumption|].
    apply Forall_fmap, Forall_true. reflexivity.
Qed.

(** C4.  In a cycle that performs updates, [check_and_update] returns true
    exactly when every outcome of the cycle, one per configured target, is a
    success, and so returns false as soon as one outcome is a failure, be
    it one of several or all of them; with all successes the time of the
    last update becomes the clock's reading at the end of the cycle, and
    otherwise it stays as it was. *)
Theorem check_and_update_all_or_nothing (config : Config) (a a1 : App W)
    (ip : string) :
  check_ip_change E a = (inr (true, Some ip), a1) ->
  ip <> "" ->
  exists (results : list DNSUpdateResult) (a2 a3 : App W) (ok : bool),
    update_all_domains E config ip a1 = (inr results, a2) /\
    target_of <$> results = target_name <$> domains config /\
    check_and_update E config a = (inr ok, a3) /\
    (ok = true <-> forall result, result ∈ results -> ur_success result = true) /\
    ((exists result, result ∈ results /\ ur_success result = false) -> ok = false) /\
    (ok = true ->
     last_update (monitor a3) = Some (fst (datetime_now E (world (net a2))))) /\
    (ok = false -> last_update (monitor a3) = last_update (monitor a)).
Proof.
  intros Hcheck Hip.
  destruct (update_all_domains_run E config ip a1)
    as (results & a2 & Hrun & Htargets & Hmonitor & _).
  pose proof (check_and_update_resolved config a a1 true ip Hcheck) as Hcycle.
  assert (Htruthy : truthy ip = true).
  { destruct (truthy ip) eqn:Ht; [reflexivity|]. apply truthy_empty_iff in Ht.
    contradiction. }
  rewrite Htruthy, Hrun in Hcycle. cbn [andb] in Hcycle.
  destruct (check_ip_change_frame a a1 _ Hcheck) as (_ & Hlast & _).
  destruct (forallb ur_success results) eqn:Hall.
  - eexists results, a2, _, true.
    split; [exact Hrun|]. split; [exact Htargets|]. split; [exact Hcycle|].
    assert (Hgood : forall result, result ∈ results -> ur_success result = true).
    { intros result Hin. rewrite forallb_forall in Hall.
      apply Hall, list_elem_of_In, Hin. }
    split; [|split; [|split]].
    + split; [intros _; exact Hgood | reflexivity].
    + intros (result & Hin & Hbad). rewrite (Hgood result Hin) in Hbad.
      discriminate.
    + intros _. reflexivity.
    + discriminate.
  - exists results, a2, a2, false.
    split; [exact Hrun|]. split; [exact Htargets|]. split; [exact Hcycle|].
    split; [|split; [|split]].
    + split; [discriminate|]. intros Hgood. rewrite <- Hall.
      apply forallb_forall. intros result Hin. apply Hgood, list_elem_of_In, Hin.
    + reflexivity.
    + discriminate.
    + intros _. rewrite Hmonitor. exact Hlast.
Qed.

(** C9.  A provider error on one target does not stop the others.
    [update_all_domains] never raises and returns one outcome per
    configured target, in configuration order, each appended to the
    history; a provider error raised while reconciling a target becomes
    that target's failed outcome.  With two targets of which the first is
    updated and the second raises a provider error, [check_and_update]
    returns false and the history ends with the first target's success
    followed by the second target's failure. *)
Theorem provider_error_does_not_abort (ip : string) :
  (forall (config : Config) (a : App W),
     exists (results : list DNSUpdateResult) (a' : App W),
       update_all_domains E config ip a = (inr results, a') /\
       target_of <$> results = target_name <$> domains config /\
       update_history a' = update_history a ++ results) /\
  (forall (key : string) (first second : DomainConfig) (a a1 : App W)
          (outcome : DNSUpdateResult) (n2 n4 : Net W) (msg : string),
     check_ip_change E a = (inr (true, Some ip), a1) ->
     ip <> "" ->
     _update_single_domain E first ip (net a1) = (inr outcome, n2) ->
     ur_success outcome = true ->
     (find_dns_record E (dc_domain second) (dc_subdomain second)
        (dc_record_type second) ;;;
      update_or_create_dns_record E (dc_domain second) (dc_subdomain second) ip
        (dc_record_type second) (dc_ttl second))
       (mkNet (world n2) (trace n2 ++ [EvSleep 1]))
     = (inl (VultrAPIError msg), n4) ->
     exists (failure : DNSUpdateResult) (a' : App W),
       check_and_update E (mkConfig key [first; second]) a = (inr false, a') /\
       update_history a' = update_history a ++ [outcome; failure] /\
       target_of failure = target_name second /\
       ur_success failure = false /\
       ur_error failure = Some msg).
Proof.
  split.
  - intros config a.
    destruct (update_all_domains_run E config ip a)
      as (results & a' & Hrun & Htargets & _ & Hhistory).
    exists results, a'. repeat split; assumption.
  - intros key first second a a1 outcome n2 n4 msg Hcheck Hip Hfirst Hok Hsecond.
    pose proof (update_single_domain_provider_error E second ip msg _ _ Hsecond)
      as Hfail.
    set (failure := mkDNSUpdateResult (dc_domain second) (dc_subdomain second)
                      false None None (Some msg)
                      (fst (datetime_now E (world n4)))) in *.
    assert (Hloop : update_all_domains E (mkConfig key [first; second]) ip a1
              = (inr [outcome; failure],
                 mkApp (mkNet (snd (datetime_now E (world n4)))
                          (trace n4 ++ [EvSleep 1]))
                   (monitor a1) (update_history a1 ++ [outcome; failure]))).
    { unfold update_all_domains. cbn [domains length update_domains_loop].
      unfold bind, lift_net, append_history, sleep, ret.
      cbn [Nat.ltb Nat.leb net monitor update_history].
      rewrite Hfirst. cbn [net monitor update_history world trace].
      rewrite Hfail. cbn [net monitor update_history world trace app].
      rewrite <- app_assoc. reflexivity. }
    pose proof (check_and_update_resolved (mkConfig key [first; second]) a a1 true
                  ip Hcheck) as Hcycle.
    assert (Htruthy : truthy ip = true).
    { destruct (truthy ip) eqn:Ht; [reflexivity|]. apply truthy_empty_iff in Ht.
      contradiction. }
    rewrite Htruthy, Hloop in Hcycle. cbn [andb forallb] in Hcycle.
    rewrite Hok in Hcycle. cbn [andb ur_success failure] in Hcycle.
    destruct (check_ip_change_frame a a1 _ Hcheck) as (Hhistory & _ & _).
    eexists failure, _. split; [exact Hcycle|].
    cbn [update_history]. rewrite Hhistory. repeat split.
Qed.

(** C10.  The last-known address moves at detection time.  When the
    resolver returns an address, [check_ip_change] has stored it before
    anything is asked of the provider, and it is still the stored address
    when [check_and_update] returns, whatever became of the updates.  A
    later cycle that resolves the same address returns true and asks
    nothing of the provider: the failed updates are not tried again. *)
Theorem current_ip_advances_at_detection (config : Config) (a : App W)
    (ip : string) (n2 : Net W) :
  resolve E a = (inr (Some ip), n2) ->
  (exists (changed : bool) (a1 : App W) (urls : list string),
     check_ip_change E a = (inr (changed, Some ip), a1) /\
     current_ip (monitor a1) = Some ip /\
     trace (net a1) = trace (net a) ++ (EvHttpGet <$> urls)) /\
  current_ip (monitor (snd (check_and_update E config a))) = Some ip /\
  (forall (later : App W) (n' : Net W),
     current_ip (monitor later) = Some ip ->
     resolve E later = (inr (Some ip), n') ->
     check_and_update E config later =
     (inr true,
      mkApp n'
        (mkIPMonitor (Some ip) (Some (fst (datetime_now E (world (net later)))))
           (last_update (monitor later)))
        (update_history later)) /\
     exists new,
       trace n' = trace (net later) ++ new /\
       Forall (fun ev => is_provider_call ev = false) new).
Proof.
  intros Hresolve.
  pose proof (check_ip_change_run E a (Some ip) n2 Hresolve) as Hcheck.
  split; [|split].
  - destruct (resolve_run E a) as (new_ip & n' & urls & Hrun & Htrace).
    rewrite Hresolve in Hrun. injection Hrun as _ <-.
    eexists _, _, urls. split; [exact Hcheck|]. split; [reflexivity|exact Htrace].
  - rewrite (check_and_update_resolved config a _ _ ip Hcheck).
    destruct (_ && truthy ip); [|reflexivity].
    destruct (update_all_domains_run E config ip
                (mkApp n2
                   (mkIPMonitor (Some ip)
                      (Some (fst (datetime_now E (world (net a)))))
                      (last_update (monitor a)))
                   (update_history a)))
      as (results & a2 & Hrun & _ & Hmonitor & _).
    rewrite Hrun. destruct (forallb ur_success results); cbn [snd monitor current_ip].
    + rewrite Hmonitor. reflexivity.
    + rewrite Hmonitor. reflexivity.
  - intros later n' Hstored Hagain.
    pose proof (check_ip_change_run E later (Some ip) n' Hagain) as Hidle.
    rewrite Hstored, bool_decide_eq_true_2 in Hidle by reflexivity.
    rewrite (check_and_update_resolved config later _ _ ip Hidle).
    split; [reflexivity|].
    destruct (resolve_run E later) as (new_ip & n'' & urls & Hrun & Htrace).
    rewrite Hagain in Hrun. injection Hrun as _ <-.
    exists (EvHttpGet <$> urls). split; [assumption|].
    apply Forall_fmap, Forall_true. reflexivity.
Qed.

End CheckAndUpdate.

(** C3 as stated fails: with every echo service out of reach the resolver
    returns no address, and [check_and_update] returns true, not false. *)
Lemma check_and_update_unresolved_returns_true :
  fst (resolve mem_env (start offline_world)) = inr None /\
  fst (check_and_update mem_env (mkConfig "key" [blog_target]) (start offline_world))
  = inr true.
Proof. split; vm_compute; reflexivity. Qed.

(** The no-op cycle on the offline world. *)
Lemma check_and_update_resolver_unavailable_witness :
  fst (resolve mem_env (start offline_world)) = inr None /\
  fst (check_and_update mem_env (mkConfig "key" [blog_target]) (start offline_world))
  = inr true /\
  current_ip (monitor (snd (check_and_update mem_env (mkConfig "key" [blog_target])
                              (start offline_world))))
  = None /\
  List.filter is_provider_call
    (trace (net (snd (check_and_update mem_env (mkConfig "key" [blog_target])
                        (start offline_world)))))
  = [].
Proof.
  split; [reflexivity|].
  edestruct (check_and_update_resolver_unavailable mem_env
               (mkConfig "key" [blog_target]) (start offline_world)) as [Hrun _].
  - reflexivity.
  - rewrite Hrun. repeat split.
Defined.

(** Both targets of the example zone are updated: the cycle returns true and
    stamps the last update. *)
Lemma check_and_update_all_or_nothing_witness :
  fst (check_and_update mem_env (mkConfig "key" [blog_target; root_target])
         (start example_world))
  = inr true /\
  last_update (monitor (snd (check_and_update mem_env
                               (mkConfig "key" [blog_target; root_target])
                               (start example_world))))
  = Some 1003.
Proof.
  edestruct (check_and_update_all_or_nothing mem_env
               (mkConfig "key" [blog_target; root_target]) (start example_world))
    as (results & a2 & a3 & ok & Hrun & _ & Hcycle & _ & _ & Hadvance & _).
  - reflexivity.
  - discriminate.
  - assert (Hok : ok = true).
    { apply (f_equal fst) in Hcycle. vm_compute in Hcycle. congruence. }
    rewrite Hcycle. cbn [fst snd]. split; [congruence|].
    rewrite (Hadvance Hok). apply (f_equal snd) in Hrun. cbn [snd] in Hrun.
    rewrite <- Hrun. reflexivity.
Defined.

(** The [blog] target is updated, the target in a zone the provider does
    not host fails: the cycle returns false and the history holds the
    success followed by the failure. *)
Lemma provider_error_does_not_abort_witness :
  fst (check_and_update mem_env (mkConfig "key" [blog_target; stray_target])
         (start example_world))
  = inr false /\
  ur_success <$> update_history
                   (snd (check_and_update mem_env
                           (mkConfig "key" [blog_target; stray_target])
                           (start example_world)))
  = [true; false].
Proof.
  edestruct (proj2 (provider_error_does_not_abort mem_env "203.0.113.7")
               "key" blog_target stray_target (start example_world))
    as (failure & a' & Hcycle & Hhistory & _ & Hfailed & _).
  - reflexivity.
  - discriminate.
  - reflexivity.
  - reflexivity.
  - reflexivity.
  - rewrite Hcycle. cbn [fst snd]. split; [reflexivity|].
    rewrite Hhistory. cbn. rewrite Hfailed. reflexivity.
Defined.

(** The only target lies in a zone the provider does not host.  The first
    cycle fails and still stores the resolved address; the second cycle
    returns true and asks nothing more of the provider. *)
Lemma current_ip_advances_at_detection_witness :
  fst (check_and_update mem_env (mkConfig "key" [stray_target]) (start example_world))
  = inr false /\
  current_ip (monitor (snd (check_and_update mem_env (mkConfig "key" [stray_target])
                              (start example_world))))
  = Some "203.0.113.7" /\
  fst (check_and_update mem_env (mkConfig "key" [stray_target])
         (snd (check_and_update mem_env (mkConfig "key" [stray_target])
                 (start example_world))))
  = inr true.
Proof.
  edestruct (current_ip_advances_at_detection mem_env (mkConfig "key" [stray_target])
               (start example_world) "203.0.113.7") as (_ & Hstored & Hlater).
  - reflexivity.
  - split; [reflexivity|]. split; [exact Hstored|].
    edestruct Hlater as [Hrun _].
    + exact Hstored.
    + reflexivity.
    + rewrite Hrun. reflexivity.
Defined.

(** * Further properties of the code *)

Section ResolverProperties.

Context {W : Type} (E : Environment W).

(** ** The resolver and the validator *)





End ResolverProperties.

Section RequestProperties.

Context {W : Type} (E : Environment W).

(** ** The requests of the client *)

(** X2.  [update_dns_record] sends the fields it is given and no other:
    with no field at all it returns without a request; otherwise it sends
    one patch whose body holds the given fields under the keys data, name,
    ttl and priority and nothing under any other key, and it ends as the
    provider's answer does. *)
Theorem update_dns_record_sends_given_fields (domain record_id : string)
    (data name : option string) (ttl priority : option Z) (n : Net W) :
  exists payload : Payload,
    payload !! "data" = JStr <$> data /\
    payload !! "name" = JStr <$> name /\
    payload !! "ttl" = JInt <$> ttl /\
    payload !! "priority" = JInt <$> priority /\
    (forall key, key ∉ ["data"; "name"; "ttl"; "priority"] -> payload !! key = None) /\
    update_dns_record E domain record_id data name ttl priority n =
    match data, name, ttl, priority with
    | None, None, None, None => (inr tt, n)
    | _, _, _, _ =>
        (fst (api_patch E domain record_id payload (world n)),
         mkNet (snd (api_patch E domain record_id payload (world n)))
           (trace n ++ [EvPatch domain record_id payload]))
    end.
Proof.
  unfold update_dns_record.
  set (p1 := match data with
             | Some d => <["data" := JStr d]> (∅ : Payload)
             | None => ∅
             end).
  set (p2 := match name with Some nm => <["name" := JStr nm]> p1 | None => p1 end).
  set (p3 := match ttl with Some t => <["ttl" := JInt t]> p2 | None => p2 end).
  set (p4 := match priority with
             | Some p => <["priority" := JInt p]> p3
             | None => p3
             end).
  exists p4.
  assert (Hlookup : forall key,
             p4 !! key =
             if decide (key = "priority") then JInt <$> priority
             else if decide (key = "ttl") then JInt <$> ttl
             else if decide (key = "name") then JStr <$> name
             else if decide (key = "data") then JStr <$> data
             else None).
  { intros key. subst p4 p3 p2 p1.
    destruct priority, ttl, name, data; repeat case_decide; subst;
      simplify_map_eq; reflexivity. }
  split; [rewrite Hlookup; reflexivity|]. split; [rewrite Hlookup; reflexivity|].
  split; [rewrite Hlookup; reflexivity|]. split; [rewrite Hlookup; reflexivity|].
  split.
  - intros key Hkey. rewrite Hlookup.
    repeat case_decide; subst; try reflexivity; exfalso; apply Hkey; set_solver.
  - destruct (decide (p4 = ∅)) as [Hempty|Hfull].
    + assert (Hnone : forall key, p4 !! key = None).
      { intros key. rewrite Hempty. apply lookup_empty. }
      pose proof (Hnone "data") as Hd. pose proof (Hnone "name") as Hn.
      pose proof (Hnone "ttl") as Ht. pose proof (Hnone "priority") as Hp.
      rewrite Hlookup in Hd, Hn, Ht, Hp. simpl in *.
      destruct data, name, ttl, priority; try discriminate. reflexivity.
    + rewrite call_run.
      destruct data, name, ttl, priority; try reflexivity.
      exfalso. apply Hfull. reflexivity.
Qed.

End RequestProperties.

Section FallbackProperties.

Context {W : Type} (E : Environment W).

(** ** The creation branch *)

(** The fallback loop tries the listed TTLs other than the one already
    tried, in order, until a creation succeeds. *)
Lemma retry_common_ttls_run (domain name record_type data : string) (ttl : Z)
    (ttl_error : string) (ttls : list Z) (n : Net W) :
  exists tried : list Z,
    tried `prefix_of` filter (fun t => t <> ttl) ttls /\
    trace (snd (retry_common_ttls E domain name record_type data ttl ttl_error ttls n))
    = trace n ++
      ((fun t => EvCreate domain (creation_payload name record_type data t)) <$> tried) /\
    match fst (retry_common_ttls E domain name record_type data ttl ttl_error ttls n) with
    | inr _ => tried <> []
    | inl (VultrAPIError msg) => msg = ttl_error /\ tried = filter (fun t => t <> ttl) ttls
    | inl (OtherException _) => tried <> []
    end.
Proof.
  revert n. induction ttls as [|try_ttl rest IH]; intros n.
  - exists []. simpl. unfold raise. cbn [fst snd]. rewrite app_nil_r.
    repeat split. apply prefix_nil.
  - cbn [retry_common_ttls]. rewrite filter_cons.
    destruct (Z.eqb_spec try_ttl ttl) as [Hsame|Hother]; cbn [negb].
    + rewrite decide_False by (intros Hne; apply Hne, Hsame). apply IH.
    + rewrite decide_True by assumption.
      unfold catch_api. rewrite create_attempt_run. cbv zeta.
      destruct (api_create E domain (creation_payload name record_type data try_ttl)
                  (world n)) as [[[msg|msg]|created] w1]; cbn [fst snd].
      * destruct (IH (mkNet w1 (trace n ++
                        [EvCreate domain
                           (creation_payload name record_type data try_ttl)])))
          as (tried & Hprefix & Htrace & Hresult).
        exists (try_ttl :: tried). split; [apply prefix_cons, Hprefix|]. split.
        -- rewrite Htrace. cbn [trace]. rewrite <- app_assoc. reflexivity.
        -- destruct (fst (retry_common_ttls E domain name record_type data ttl
                            ttl_error rest _)) as [[msg'|msg']|[]];
             [|discriminate|discriminate].
           destruct Hresult as [-> ->]. split; reflexivity.
      * exists [try_ttl]. split; [apply prefix_cons, prefix_nil|].
        split; [reflexivity|discriminate].
      * exists [try_ttl]. split; [apply prefix_cons, prefix_nil|].
        split; [reflexivity|discriminate].
Qed.


(** The handler adds creation requests only, six at most. *)
Lemma create_after_error_added (domain name record_type data : string) (ttl : Z)
    (n : Net W) :
  exists creates : list Event,
    trace (snd (create_after_error E domain name record_type data ttl n))
    = trace n ++ creates /\
    Forall (fun ev => exists payload, ev = EvCreate domain payload) creates /\
    (length creates <= 6)%nat.
Proof.
  unfold create_after_error, catch_api. rewrite create_attempt_run. cbv zeta.
  assert (Hone : Forall (fun ev => exists payload, ev = EvCreate domain payload)
                   [EvCreate domain (creation_payload name record_type data ttl)]).
  { constructor; [eexists; reflexivity|constructor]. }
  destruct (api_create E domain (creation_payload name record_type data ttl)
              (world n)) as [[[msg|msg]|created] w1]; cbn [fst snd].
  - destruct (str_in "TTL" msg).
    + destruct (retry_common_ttls_run domain name record_type data ttl msg
                  common_ttls
                  (mkNet w1 (trace n ++
                     [EvCreate domain (creation_payload name record_type data ttl)])))
        as (tried & Hprefix & Htrace & _).
      eexists. split; [rewrite Htrace; cbn [trace]; rewrite <- app_assoc; reflexivity|].
      split.
      * apply Forall_app. split; [exact Hone|].
        apply Forall_fmap, Forall_true. intros t. eexists. reflexivity.
      * rewrite length_app, length_fmap. cbn [length].
        apply prefix_length in Hprefix.
        pose proof (length_filter (fun t => t <> ttl) common_ttls) as Hfilter.
        cbn [common_ttls length] in Hfilter. lia.
    + exists [EvCreate domain (creation_payload name record_type data ttl)].
      split; [reflexivity|]. split; [exact Hone|]. cbn. lia.
  - exists [EvCreate domain (creation_payload name record_type data ttl)].
    split; [reflexivity|]. split; [exact Hone|]. cbn. lia.
  - exists [EvCreate domain (creation_payload name record_type data ttl)].
    split; [reflexivity|]. split; [exact Hone|]. cbn. lia.
Qed.

(** The requests of one reconciliation, for the lemmas on whole cycles. *)
Lemma update_or_create_added (domain subdomain ip_address record_type : string)
    (ttl : Z) (n : Net W) :
  exists added : list Event,
    trace (snd (update_or_create_dns_record E domain subdomain ip_address
                  record_type ttl n))
    = trace n ++ EvList domain :: added /\
    (length added <= 8)%nat /\
    (added = [] \/
     (exists record_id payload, added = [EvPatch domain record_id payload]) \/
     (exists creates,
        added = EvList domain :: creates /\
        Forall (fun ev => exists payload, ev = EvCreate domain payload) creates /\
        (length creates <= 7)%nat)).
Proof.
  unfold update_or_create_dns_record, bind at 1.
  rewrite find_dns_record_run.
  destruct (api_list E domain (world n)) as [[e|records] w1].
  - exists []. cbn. split; [reflexivity|]. split; [lia|]. left. reflexivity.
  - destruct (List.find _ records) as [existing|].
    + destruct (bool_decide (r_data existing = ip_address)); cbn [negb].
      * exists []. cbn. split; [reflexivity|]. split; [lia|]. left. reflexivity.
      * rewrite update_dns_record_data_only, call_run. cbn [snd trace].
        eexists [_]. split; [rewrite <- app_assoc; reflexivity|].
        split; [cbn; lia|]. right. left. eexists _, _. reflexivity.
    + unfold bind at 1, attempt_api, list_dns_records. rewrite call_run.
      cbn [world trace].
      set (name := if truthy subdomain then subdomain else "@").
      destruct (api_list E domain w1) as [[[msg|msg]|all_records] w2]; cbn [fst snd].
      * destruct (create_after_error_added domain name record_type ip_address ttl
                    (mkNet w2 ((trace n ++ [EvList domain]) ++ [EvList domain])))
          as (creates & Htrace & Hcreates & Hlen).
        exists (EvList domain :: creates). rewrite Htrace. cbn [trace].
        split; [rewrite <- !app_assoc; reflexivity|]. split; [cbn; lia|].
        right. right. exists creates. split; [reflexivity|]. split; [assumption|lia].
      * exists [EvList domain]. cbn [snd trace].
        split; [rewrite <- !app_assoc; reflexivity|]. split; [cbn; lia|].
        right. right. exists []. split; [reflexivity|]. split; [constructor|cbn; lia].
      * unfold catch_api. rewrite create_attempt_run. cbv zeta. cbn [world trace].
        set (payload := creation_payload name record_type ip_address
                          (domain_ttl all_records ttl)).
        assert (Hone : Forall (fun ev => exists p, ev = EvCreate domain p)
                         [EvCreate domain payload]).
        { constructor; [eexists; reflexivity|constructor]. }
        destruct (api_create E domain payload w2) as [[[msg|msg]|created] w3];
          cbn [fst snd].
        -- destruct (create_after_error_added domain name record_type ip_address
                       (domain_ttl all_records ttl)
                       (mkNet w3 (((trace n ++ [EvList domain]) ++ [EvList domain])
                                  ++ [EvCreate domain payload])))
             as (creates & Htrace & Hcreates & Hlen).
           exists (EvList domain :: EvCreate domain payload :: creates).
           rewrite Htrace. cbn [trace].
           split; [rewrite <- !app_assoc; reflexivity|]. split; [cbn; lia|].
           right. right. exists (EvCreate domain payload :: creates).
           split; [reflexivity|]. split; [|cbn; lia].
           constructor; [eexists; reflexivity|assumption].
        -- exists [EvList domain; EvCreate domain payload]. cbn [trace].
           split; [rewrite <- !app_assoc; reflexivity|]. split; [cbn; lia|].
           right. right. exists [EvCreate domain payload].
           split; [reflexivity|]. split; [assumption|cbn; lia].
        -- exists [EvList domain; EvCreate domain payload]. cbn [trace].
           split; [rewrite <- !app_assoc; reflexivity|]. split; [cbn; lia|].
           right. right. exists [EvCreate domain payload].
           split; [reflexivity|]. split; [assumption|cbn; lia].
Qed.

(** X5.  The requests of one reconciliation.  It starts with a listing of
    the domain.  What follows is nothing, or one patch, or a second listing
    and then creation requests, seven at most; a patch and a creation never
    come from the same call, every request is for the target's domain, and
    there are nine requests at most. *)
Theorem update_or_create_requests (domain subdomain ip_address record_type : string)
    (ttl : Z) (n : Net W) :
  exists added : list Event,
    trace (snd (update_or_create_dns_record E domain subdomain ip_address
                  record_type ttl n))
    = trace n ++ EvList domain :: added /\
    (length added <= 8)%nat /\
    (added = [] \/
     (exists record_id payload, added = [EvPatch domain record_id payload]) \/
     (exists creates,
        added = EvList domain :: creates /\
        Forall (fun ev => exists payload, ev = EvCreate domain payload) creates /\
        (length creates <= 7)%nat)).
Proof. apply update_or_create_added. Qed.

End FallbackProperties.

Section OperationProperties.

Context {W : Type} (E : Environment W).

(** ** Names *)

Lemma full_domain_candidate (domain_config : DomainConfig) :
  full_domain domain_config
  ∈ target_names (dc_domain domain_config) (dc_subdomain domain_config).
Proof.
  unfold full_domain, target_names.
  destruct (truthy (dc_subdomain domain_config)); set_solver.
Qed.

(** X6.  The matcher knows the full name of a target.  When the provider
    lists a record of the target's kind whose name is the target's
    [full_domain] (the subdomain, a dot and the domain, or the domain alone
    for the root), [find_dns_record] finds a record for the target. *)
Theorem find_dns_record_knows_full_domain (domain_config : DomainConfig)
    (n : Net W) (records : list DNSRecord) (w : W) (r : DNSRecord) :
  api_list E (dc_domain domain_config) (world n) = (inr records, w) ->
  r ∈ records ->
  r_type r = dc_record_type domain_config ->
  r_name r = full_domain domain_config ->
  exists found,
    fst (find_dns_record E (dc_domain domain_config) (dc_subdomain domain_config)
           (dc_record_type domain_config) n)
    = inr (Some found).
Proof.
  intros Hlist Hin Htype Hname. rewrite find_dns_record_run, Hlist. cbn [fst].
  pose proof (find_first_match
                (record_matches (dc_record_type domain_config)
                   (target_names (dc_domain domain_config)
                      (dc_subdomain domain_config))) records) as Hfind.
  destruct (List.find _ records) as [found|]; [exists found; reflexivity|].
  exfalso. rewrite Forall_forall in Hfind. specialize (Hfind r Hin).
  apply record_matches_false_iff in Hfind. apply Hfind.
  split; [exact Htype|]. rewrite Hname. apply full_domain_candidate.
Qed.

(** ** Outcomes *)

Lemma update_single_domain_shape (domain_config : DomainConfig) (ip_address : string)
    (n : Net W) :
  exists (result : DNSUpdateResult) (n' : Net W),
    _update_single_domain E domain_config ip_address n = (inr result, n') /\
    outcome_shape ip_address result /\
    get_full_domain result = full_domain domain_config.
Proof.
  unfold _update_single_domain, catch_all.
  match goal with
  | |- context [bind ?c ?k n] => destruct (bind c k n) as [[e|result] n'] eqn:Hbody
  end.
  - unfold bind, now, ret. destruct (datetime_now E (world n')) as [t w].
    eexists _, _. split; [reflexivity|]. split; [|reflexivity].
    right. cbn. repeat split. eexists. reflexivity.
  - exists result, n'. split; [reflexivity|].
    unfold bind in Hbody.
    destruct (find_dns_record E _ _ _ n) as [[e|existing] n1]; [discriminate|].
    destruct (update_or_create_dns_record E _ _ _ _ _ n1) as [[e|[]] n2];
      [discriminate|].
    unfold now, ret in Hbody. destruct (datetime_now E (world n2)) as [t w].
    injection Hbody as <- _. split; [|reflexivity]. left. repeat split.
Qed.

Lemma update_domains_loop_shape (n_domains : nat) (ip_address : string)
    (todo : list DomainConfig) (results : list DNSUpdateResult) (a : App W) :
  exists (new : list DNSUpdateResult) (a' : App W),
    update_domains_loop E n_domains ip_address todo results a
    = (inr (results ++ new), a') /\
    Forall (outcome_shape ip_address) new /\
    get_full_domain <$> new = full_domain <$> todo.
Proof.
  revert results a. induction todo as [|domain_config rest IH]; intros results a.
  - exists [], a. simpl. unfold ret. rewrite app_nil_r.
    split; [reflexivity|]. split; [constructor|reflexivity].
  - simpl. unfold bind at 1, lift_net at 1.
    destruct (update_single_domain_shape domain_config ip_address (net a))
      as (result & n' & Hone & Hshape & Hname).
    rewrite Hone. unfold bind at 1, append_history. unfold bind at 1.
    match goal with
    | |- context [(if ?b then _ else _) ?a1] =>
        assert (Hpause : exists a2, (if b then lift_net (sleep 1) else ret tt) a1
                                    = (inr tt, a2))
          by (destruct b; eexists; reflexivity)
    end.
    destruct Hpause as [a2 Hpause]. rewrite Hpause.
    destruct (IH (results ++ [result]) a2) as (new & a' & Hrun & Hshapes & Hnames).
    exists (result :: new), a'. rewrite Hrun.
    split; [rewrite <- app_assoc; reflexivity|].
    split; [constructor; assumption|].
    rewrite !fmap_cons, Hname, Hnames. reflexivity.
Qed.

(** X9.  The outcomes of [update_all_domains].  Every outcome is either a
    success that carries the new address and no error, or a failure that
    carries an error message and neither the old nor the new address (the
    old address is dropped even when the lookup had found it); and the full
    domain names of the outcomes are those of the configured targets, in
    order. *)
Theorem update_all_domains_outcomes (config : Config) (ip_address : string)
    (a : App W) :
  exists (results : list DNSUpdateResult) (a' : App W),
    update_all_domains E config ip_address a = (inr results, a') /\
    Forall (outcome_shape ip_address) results /\
    get_full_domain <$> results = full_domain <$> domains config.
Proof.
  unfold update_all_domains.
  destruct (update_domains_loop_shape (length (domains config)) ip_address
              (domains config) [] a) as (new & a' & Hrun & Hshapes & Hnames).
  exists new, a'. split; [exact Hrun|]. split; assumption.
Qed.

(** ** Forced updates *)

(** One turn of the loop of [update_all_domains]. *)
Lemma update_domains_loop_step (n_domains : nat) (ip_address : string)
    (domain_config : DomainConfig) (rest : list DomainConfig)
    (results : list DNSUpdateResult) (a : App W) :
  update_domains_loop E n_domains ip_address (domain_config :: rest) results a =
  match _update_single_domain E domain_config ip_address (net a) with
  | (inl e, n') => (inl e, mkApp n' (monitor a) (update_history a))
  | (inr result, n') =>
      update_domains_loop E n_domains ip_address rest (results ++ [result])
        (mkApp
           (if (1 <? n_domains)%nat
            then mkNet (world n') (trace n' ++ [EvSleep 1])
            else n')
           (monitor a) (update_history a ++ [result]))
  end.
Proof.
  cbn [update_domains_loop]. unfold bind at 1, lift_net at 1.
  destruct (_update_single_domain E domain_config ip_address (net a))
    as [[e|result] n']; [reflexivity|].
  unfold bind at 1, append_history. unfold bind at 1.
  cbn [net monitor update_history].
  destruct (1 <? n_domains)%nat; reflexivity.
Qed.

(** The loop reads and writes the outside world only: its outcomes and its
    traffic do not depend on the monitor or on the history. *)
Lemma update_domains_loop_net (n_domains : nat) (ip_address : string)
    (todo : list DomainConfig) (results : list DNSUpdateResult) (a1 a2 : App W) :
  net a1 = net a2 ->
  fst (update_domains_loop E n_domains ip_address todo results a1)
  = fst (update_domains_loop E n_domains ip_address todo results a2) /\
  net (snd (update_domains_loop E n_domains ip_address todo results a1))
  = net (snd (update_domains_loop E n_domains ip_address todo results a2)).
Proof.
  revert results a1 a2. induction todo as [|domain_config rest IH];
    intros results a1 a2 Hnet.
  - simpl. unfold ret. split; [reflexivity|exact Hnet].
  - rewrite !update_domains_loop_step, Hnet.
    destruct (_update_single_domain E domain_config ip_address (net a2))
      as [[e|result] n'].
    + split; reflexivity.
    + apply IH. reflexivity.
Qed.

(** X7.  [force_update] bypasses the comparison and keeps no note of it.
    It never raises; the monitor is left as it was, so neither the stored
    address nor the time of the last update moves; the outcomes are
    appended to the history; and outcomes and traffic are the same whatever
    the monitor holds.  With a resolved address there is one outcome per
    configured target; without one nothing is asked of the provider and the
    result is empty. *)
Theorem force_update_bypasses_comparison (config : Config) (a : App W) :
  exists (results : list DNSUpdateResult) (a' : App W),
    force_update E config a = (inr results, a') /\
    monitor a' = monitor a /\
    update_history a' = update_history a ++ results /\
    (forall (m : IPMonitor) (h : list DNSUpdateResult),
       fst (force_update E config (mkApp (net a) m h)) = inr results /\
       net (snd (force_update E config (mkApp (net a) m h))) = net a') /\
    match fst (get_public_ip E (net a)) with
    | inr (Some ip) =>
        if truthy ip
        then target_of <$> results = target_name <$> domains config
        else results = [] /\ net a' = snd (get_public_ip E (net a))
    | _ => results = [] /\ net a' = snd (get_public_ip E (net a))
    end.
Proof.
  unfold force_update, bind, lift_net. cbn [net monitor update_history].
  destruct (get_public_ip_from_run E IP_SERVICES (net a))
    as (found & n1 & urls & Hresolve & _ & _).
  fold (get_public_ip E) in Hresolve. rewrite Hresolve. cbn [fst snd].
  assert (Hnothing : exists results a',
             @ret (App W) _ [] (mkApp n1 (monitor a) (update_history a))
             = (inr results, a') /\
             monitor a' = monitor a /\
             update_history a' = update_history a ++ results /\
             (forall m h,
                fst (@ret (App W) (list DNSUpdateResult) [] (mkApp n1 m h))
                = inr results /\
                net (snd (@ret (App W) (list DNSUpdateResult) [] (mkApp n1 m h)))
                = net a') /\
             results = [] /\ net a' = n1).
  { eexists [], _. split; [reflexivity|]. cbn. rewrite app_nil_r. repeat split. }
  destruct found as [ip|]; [|exact Hnothing].
  destruct (truthy ip); [|exact Hnothing].
  destruct (update_all_domains_run E config ip
              (mkApp n1 (monitor a) (update_history a)))
    as (results & a' & Hrun & Htargets & Hmonitor & Hhistory).
  exists results, a'. split; [exact Hrun|]. split; [exact Hmonitor|].
  split; [exact Hhistory|]. split; [|exact Htargets].
  intros m h. unfold update_all_domains in *.
  destruct (update_domains_loop_net (length (domains config)) ip (domains config) []
              (mkApp n1 m h) (mkApp n1 (monitor a) (update_history a)) eq_refl)
    as [Hsame Hnet].
  rewrite Hsame, Hnet, Hrun. split; reflexivity.
Qed.

End OperationProperties.

(** On a zone whose record is named [blog.example.com] the [blog] target is
    found. *)
Lemma find_dns_record_knows_full_domain_witness :
  exists found,
    fst (find_dns_record mem_env "example.com" "blog" "A" (mkNet fqdn_world []))
    = inr (Some found).
Proof.
  apply (find_dns_record_knows_full_domain mem_env blog_target (mkNet fqdn_world [])
           [mkDNSRecord "r9" "A" "blog.example.com" "198.51.100.9" 300 None]
           fqdn_world
           (mkDNSRecord "r9" "A" "blog.example.com" "198.51.100.9" 300 None)).
  - reflexivity.
  - apply list_elem_of_here.
  - reflexivity.
  - reflexivity.
Defined.

Section VerifyAndDaemon.

Context {W : Type} (E : Environment W).

(** ** Verification *)

Lemma verify_one_run (domain_config : DomainConfig) (n : Net W) :
  exists (entry : gmap string PyVal) (n' : Net W),
    verify_one E domain_config n = (inr entry, n') /\
    trace n' = trace n ++ [EvList (dc_domain domain_config)] /\
    entry !! "domain" = Some (PStr (full_domain domain_config)) /\
    entry_shape entry.
Proof.
  unfold verify_one, catch_all, bind. rewrite find_dns_record_run.
  destruct (api_list E (dc_domain domain_config) (world n)) as [[e|records] w].
  - eexists _, _. split; [reflexivity|]. split; [reflexivity|].
    split; [reflexivity|]. right.
    split; [reflexivity|]. split; [reflexivity|]. eexists. reflexivity.
  - destruct (List.find _ records) as [r|].
    + eexists _, _. split; [reflexivity|]. split; [reflexivity|].
      split; [reflexivity|]. left.
      split; [reflexivity|]. split; [eexists|]; reflexivity.
    + eexists _, _. split; [reflexivity|]. split; [reflexivity|].
      split; [reflexivity|]. right.
      split; [reflexivity|]. split; [reflexivity|]. eexists. reflexivity.
Qed.

Lemma verify_loop_run (todo : list DomainConfig)
    (verification_results : list (gmap string PyVal)) (n : Net W) :
  exists (entries : list (gmap string PyVal)) (n' : Net W),
    verify_loop E todo verification_results n
    = (inr (verification_results ++ entries), n') /\
    trace n' = trace n ++ ((fun dc => EvList (dc_domain dc)) <$> todo) /\
    (fun entry => entry !! "domain") <$> entries
    = (fun dc => Some (PStr (full_domain dc))) <$> todo /\
    Forall entry_shape entries.
Proof.
  revert verification_results n.
  induction todo as [|domain_config rest IH]; intros verification_results n.
  - exists [], n. simpl. unfold ret. rewrite !app_nil_r.
    split; [reflexivity|]. split; [reflexivity|]. split; [reflexivity|constructor].
  - cbn [verify_loop]. unfold bind at 1.
    destruct (verify_one_run domain_config n)
      as (entry & n1 & Hone & Htrace1 & Hdomain & Hshape).
    rewrite Hone.
    destruct (IH (verification_results ++ [entry]) n1)
      as (entries & n' & Hrun & Htrace & Hdomains & Hshapes).
    exists (entry :: entries), n'. rewrite Hrun.
    split; [rewrite <- app_assoc; reflexivity|]. split.
    + rewrite Htrace, Htrace1, fmap_cons, <- app_assoc. reflexivity.
    + split; [rewrite !fmap_cons, Hdomain, Hdomains; reflexivity|].
      constructor; assumption.
Qed.

(** X8.  [verify_dns_records] only reads.  It never raises, whatever the
    provider raises; what it asks of the provider is one listing per
    configured target, in order, and nothing else; and it returns one entry
    per target, in order, under the target's full domain name, each either
    a record that exists with its address or an absence with an error. *)
Theorem verify_dns_records_read_only (config : Config) (n : Net W) :
  exists (entries : list (gmap string PyVal)) (n' : Net W),
    verify_dns_records E config n = (inr entries, n') /\
    trace n' = trace n ++ ((fun dc => EvList (dc_domain dc)) <$> domains config) /\
    (fun entry => entry !! "domain") <$> entries
    = (fun dc => Some (PStr (full_domain dc))) <$> domains config /\
    Forall entry_shape entries.
Proof.
  unfold verify_dns_records.
  destruct (verify_loop_run (domains config) [] n)
    as (entries & n' & Hrun & Htrace & Hdomains & Hshapes).
  exists entries, n'. split; [exact Hrun|]. repeat split; assumption.
Qed.

(** ** Reset *)

(** X10.  After [reset] the next cycle updates.  When the resolver returns
    a non-empty address in the cycle that follows a reset, that cycle runs
    [update_all_domains] for it, whatever address was stored before the
    reset: it yields one outcome per target, appends them to the history
    and returns whether all of them succeeded. *)
Theorem reset_forces_update (config : Config) (a : App W) (ip : string)
    (n2 : Net W) :
  resolve E (mkApp (net a) (mkIPMonitor None None None) (update_history a))
  = (inr (Some ip), n2) ->
  ip <> "" ->
  exists (results : list DNSUpdateResult) (a2 : App W),
    update_all_domains E config ip
      (mkApp n2
         (mkIPMonitor (Some ip) (Some (fst (datetime_now E (world (net a))))) None)
         (update_history a))
    = (inr results, a2) /\
    target_of <$> results = target_name <$> domains config /\
    fst ((reset ;;; check_and_update E config) a) = inr (forallb ur_success results) /\
    update_history (snd ((reset ;;; check_and_update E config) a))
    = update_history a ++ results.
Proof.
  intros Hresolve Hip.
  pose proof (check_ip_change_run E _ (Some ip) n2 Hresolve) as Hcheck.
  cbn [monitor current_ip last_update update_history net] in Hcheck.
  rewrite bool_decide_eq_false_2 in Hcheck by discriminate. cbn [negb] in Hcheck.
  destruct (update_all_domains_run E config ip
              (mkApp n2
                 (mkIPMonitor (Some ip)
                    (Some (fst (datetime_now E (world (net a))))) None)
                 (update_history a)))
    as (results & a2 & Hrun & Htargets & _ & Hhistory).
  exists results, a2. split; [exact Hrun|]. split; [exact Htargets|].
  unfold bind at 1 2, reset, set_monitor.
  rewrite (check_and_update_resolved E config _ _ true ip Hcheck).
  assert (Htruthy : truthy ip = true).
  { destruct (truthy ip) eqn:Ht; [reflexivity|]. apply truthy_empty_iff in Ht.
    contradiction. }
  rewrite Htruthy, Hrun. cbn [andb].
  destruct (forallb ur_success results); cbn [fst snd update_history];
    (split; [reflexivity|exact Hhistory]).
Qed.

(** ** The failure counter of the daemon *)




End VerifyAndDaemon.

(** A first cycle stores the address; after a reset the next cycle updates
    the target again although the address is the same. *)
Lemma reset_forces_update_witness :
  fst ((reset ;;; check_and_update mem_env (mkConfig "key" [blog_target]))
         (snd (check_and_update mem_env (mkConfig "key" [blog_target])
                 (start example_world))))
  = inr true /\
  length (update_history
            (snd ((reset ;;; check_and_update mem_env (mkConfig "key" [blog_target]))
                    (snd (check_and_update mem_env (mkConfig "key" [blog_target])
                            (start example_world))))))
  = 2%nat.
Proof.
  edestruct (reset_forces_update mem_env (mkConfig "key" [blog_target])
               (snd (check_and_update mem_env (mkConfig "key" [blog_target])
                       (start example_world)))
               "203.0.113.7")
    as (results & a2 & Hrun & _ & Hok & Hhistory).
  - reflexivity.
  - discriminate.
  - rewrite Hok, Hhistory. apply (f_equal fst) in Hrun. vm_compute in Hrun.
    injection Hrun as <-. split; reflexivity.
Defined.

Section CleanupProperties.

Context {W : Type} (E : Environment W).
Context (api_delete : string -> string -> W -> (exn + unit) * W).

(** ** The cleanup script *)

(** The loop asks for the deletion of every record it is given, in order,
    whether or not the provider refuses some of them, and reads no input. *)
Lemma delete_loop_run (domain : string) (delete_records : list DNSRecord)
    (t : Terminal W) :
  exists t',
    delete_loop api_delete domain delete_records t = (inr tt, t') /\
    deletions t' = deletions t ++ ((fun r => (domain, r_id r)) <$> delete_records) /\
    stdin t' = stdin t.
Proof.
  revert t. induction delete_records as [|record rest IH]; intros t.
  - exists t. simpl. unfold ret. rewrite app_nil_r. repeat split.
  - cbn [delete_loop]. unfold bind, catch_all, delete_dns_record, ret.
    destruct (api_delete domain (r_id record) (world (t_net t))) as [[e|[]] w];
      match goal with
      | |- context [delete_loop api_delete domain rest ?t1] =>
          destruct (IH t1) as (t' & Hrun & Hdeleted & Hstdin)
      end;
      exists t'; (split; [exact Hrun|]); (split; [|exact Hstdin]);
      rewrite Hdeleted; cbn [deletions]; rewrite fmap_cons, <- app_assoc;
      reflexivity.
Qed.

Lemma read_choice_suffix (count : nat) (lines : list string) :
  snd (read_choice count lines) `suffix_of` lines.
Proof.
  induction lines as [|line rest IH]; simpl; [reflexivity|].
  destruct (bool_decide (lower (strip line) = "cancel")); [apply suffix_cons_r; reflexivity|].
  destruct (python_int (strip line)) as [number|]; [|apply suffix_cons_r, IH].
  destruct (_ && _); [apply suffix_cons_r; reflexivity | apply suffix_cons_r, IH].
Qed.

Lemma read_choice_in_range (count : nat) (lines rest : list string) (choice_num : Z) :
  read_choice count lines = (Chosen choice_num, rest) ->
  0 <= choice_num < Z.of_nat count.
Proof.
  induction lines as [|line others IH]; simpl; [discriminate|].
  destruct (bool_decide (lower (strip line) = "cancel")); [discriminate|].
  destruct (python_int (strip line)) as [number|]; [|exact IH].
  destruct (Z.leb_spec 0 (number - 1)); destruct (Z.ltb_spec (number - 1) (Z.of_nat count));
    cbn [andb]; try exact IH.
  intros [= <- _]. lia.
Qed.

Lemma filter_other_ids (keep_id : string) (records : list DNSRecord) :
  List.filter (fun r => negb (bool_decide (r_id r = keep_id))) records
  = filter (fun r => r_id r <> keep_id) records.
Proof.
  induction records as [|r rest IH]; [reflexivity|].
  cbn [List.filter]. rewrite filter_cons, IH.
  destruct (decide (r_id r = keep_id)) as [Heq|Hne].
  - rewrite bool_decide_eq_true_2 by assumption. rewrite decide_False by tauto.
    reflexivity.
  - rewrite bool_decide_eq_false_2 by assumption. rewrite decide_True by assumption.
    reflexivity.
Qed.

Lemma root_a_records_spec (records : list DNSRecord) (r : DNSRecord) :
  r ∈ root_a_records records <-> r ∈ records /\ r_type r = "A" /\ r_name r = "".
Proof.
  unfold root_a_records. rewrite list_elem_of_In, filter_In, <- list_elem_of_In.
  rewrite andb_true_iff, !bool_decide_eq_true. tauto.
Qed.

(** X12.  What the script deletes once the operator has chosen and
    confirmed.  When the first configured domain lists two or more address
    records for the root, the operator's input picks one of them and the
    next line reads yes, the script asks for the deletion of every other
    root address record, each once and in listing order, going on when a
    deletion fails; it never asks for the deletion of the record chosen to
    be kept, and it ends normally. *)
Theorem cleanup_deletes_all_but_kept (config : Config) (first : DomainConfig)
    (others : list DomainConfig) (t : Terminal W) (records : list DNSRecord)
    (w1 : W) (choice_num : Z) (confirm : string) (rest : list string) :
  domains config = first :: others ->
  api_list E (dc_domain first) (world (t_net t)) = (inr records, w1) ->
  (2 <= length (root_a_records records))%nat ->
  read_choice (length (root_a_records records)) (stdin t)
  = (Chosen choice_num, confirm :: rest) ->
  lower (strip confirm) = "yes" ->
  exists (keep : DNSRecord) (t' : Terminal W),
    root_a_records records !! Z.to_nat choice_num = Some keep /\
    cleanup_main E api_delete config t = (inr tt, t') /\
    stdin t' = rest /\
    deletions t' =
    deletions t ++
    ((fun r => (dc_domain first, r_id r))
       <$> filter (fun r => r_id r <> r_id keep) (root_a_records records)) /\
    (dc_domain first, r_id keep)
    ∉ ((fun r => (dc_domain first, r_id r))
         <$> filter (fun r => r_id r <> r_id keep) (root_a_records records)).
Proof.
  intros Hdomains Hlist Hmany Hchoice Hyes.
  pose proof (read_choice_in_range _ _ _ _ Hchoice) as Hrange.
  destruct (lookup_lt_is_Some_2 (root_a_records records) (Z.to_nat choice_num))
    as [keep Hkeep]; [lia|].
  unfold cleanup_main. rewrite Hdomains. unfold bind at 1, lift_terminal.
  unfold list_dns_records. rewrite call_run, Hlist. cbn [fst snd].
  destruct (Nat.leb_spec (length (root_a_records records)) 1) as [Hfew|_]; [lia|].
  cbn [stdin t_net deletions]. rewrite Hchoice, Hkeep.
  unfold bind at 1, input. cbn [stdin t_net deletions].
  rewrite bool_decide_eq_true_2 by assumption. cbn [negb].
  rewrite filter_other_ids.
  match goal with
  | |- context [delete_loop api_delete ?d ?l ?t1] =>
      destruct (delete_loop_run d l t1) as (t' & Hrun & Hdeleted & Hstdin)
  end.
  exists keep, t'. split; [reflexivity|]. split; [exact Hrun|].
  split; [exact Hstdin|]. split; [exact Hdeleted|].
  intros Hin. apply list_elem_of_fmap in Hin as (r & Heq & Hr).
  apply list_elem_of_filter in Hr as [Hne _]. injection Heq as Heq. congruence.
Qed.

(** X13.  The script deletes nothing it was not told to.  Every deletion
    it asks for is for the first configured domain and for an address
    record of the root that the listing returned, and it asks for none
    unless some line of the input reads yes; when the listing fails, or
    returns at most one such record, nothing is deleted, and in the latter
    case no input is read either. *)
Theorem cleanup_deletes_only_confirmed_root_records (config : Config)
    (t : Terminal W) :
  exists added : list (string * string),
    deletions (snd (cleanup_main E api_delete config t)) = deletions t ++ added /\
    (added = [] \/ exists line, line ∈ stdin t /\ lower (strip line) = "yes") /\
    match domains config with
    | [] => added = []
    | first :: _ =>
        match fst (api_list E (dc_domain first) (world (t_net t))) with
        | inl _ => added = []
        | inr records =>
            Forall (fun deletion =>
                      fst deletion = dc_domain first /\
                      exists r, r ∈ records /\ r_type r = "A" /\ r_name r = "" /\
                                r_id r = snd deletion) added /\
            ((length (root_a_records records) <= 1)%nat ->
             added = [] /\ stdin (snd (cleanup_main E api_delete config t)) = stdin t)
        end
    end.
Proof.
  destruct (cleanup_main E api_delete config t) as [res t'] eqn:Hrun. cbn [snd].
  unfold cleanup_main in Hrun.
  destruct (domains config) as [|first others].
  { injection Hrun as _ <-. exists []. rewrite app_nil_r.
    repeat split. left. reflexivity. }
  unfold bind at 1, lift_terminal, list_dns_records in Hrun.
  rewrite call_run in Hrun.
  destruct (api_list E (dc_domain first) (world (t_net t))) as [[e|records] w1];
    cbn [fst snd] in Hrun |- *.
  { injection Hrun as _ <-. exists []. cbn. rewrite app_nil_r.
    repeat split. left. reflexivity. }
  destruct (Nat.leb_spec (length (root_a_records records)) 1) as [Hfew|Hmany].
  { injection Hrun as _ <-. exists []. cbn. rewrite app_nil_r.
    split; [reflexivity|]. split; [left; reflexivity|]. split; [constructor|].
    intros _. split; reflexivity. }
  cbn [stdin t_net deletions] in Hrun.
  pose proof (read_choice_suffix (length (root_a_records records)) (stdin t)) as Hsuffix.
  destruct (read_choice (length (root_a_records records)) (stdin t))
    as [[ | choice_num | ] rest] eqn:Hchoice; cbn [snd] in Hsuffix.
  - injection Hrun as _ <-. exists []. cbn. rewrite app_nil_r.
    split; [reflexivity|]. split; [left; reflexivity|]. split; [constructor|lia].
  - destruct (root_a_records records !! Z.to_nat choice_num) as [keep|] eqn:Hkeep.
    + unfold bind at 1, input in Hrun. cbn [stdin t_net deletions] in Hrun.
      destruct rest as [|confirm rest'].
      { injection Hrun as _ <-. exists []. cbn. rewrite app_nil_r.
        split; [reflexivity|]. split; [left; reflexivity|]. split; [constructor|lia]. }
      destruct (decide (lower (strip confirm) = "yes")) as [Hyes|Hno].
      * rewrite bool_decide_eq_true_2 in Hrun by assumption. cbn [negb] in Hrun.
        match type of Hrun with
        | delete_loop api_delete ?d ?l ?t1 = _ =>
            destruct (delete_loop_run d l t1) as (t2 & Hloop & Hdeleted & Hstdin)
        end.
        rewrite Hloop in Hrun. injection Hrun as _ <-.
        eexists. split; [exact Hdeleted|]. split.
        -- right. exists confirm. split; [|exact Hyes].
           destruct Hsuffix as [before ->]. set_solver.
        -- split; [|lia]. apply Forall_fmap, Forall_forall. intros r Hr.
           rewrite filter_other_ids in Hr.
           apply list_elem_of_filter in Hr as [_ Hr].
           apply root_a_records_spec in Hr as (Hin & Htype & Hname).
           split; [reflexivity|]. exists r. repeat split; assumption.
      * rewrite bool_decide_eq_false_2 in Hrun by assumption. cbn [negb] in Hrun.
        injection Hrun as _ <-. exists []. cbn. rewrite app_nil_r.
        split; [reflexivity|]. split; [left; reflexivity|]. split; [constructor|lia].
    + injection Hrun as _ <-. exists []. cbn. rewrite app_nil_r.
      split; [reflexivity|]. split; [left; reflexivity|]. split; [constructor|lia].
  - injection Hrun as _ <-. exists []. cbn. rewrite app_nil_r.
    split; [reflexivity|]. split; [left; reflexivity|]. split; [constructor|lia].
Qed.

End CleanupProperties.

(** Three root address records; the operator first types a number out of
    range and a word, then picks the third record and confirms: the other
    two are deleted. *)
Lemma cleanup_deletes_all_but_kept_witness :
  fst (cleanup_main mem_env mem_delete (mkConfig "key" [root_target])
         (mkTerminal (mkNet duplicates_world []) ["0"; "three"; " 3 "; "Yes"] []))
  = inr tt /\
  deletions
    (snd (cleanup_main mem_env mem_delete (mkConfig "key" [root_target])
            (mkTerminal (mkNet duplicates_world []) ["0"; "three"; " 3 "; "Yes"] [])))
  = [("example.com", "d1"); ("example.com", "d3")].
Proof.
  edestruct (cleanup_deletes_all_but_kept mem_env mem_delete
               (mkConfig "key" [root_target]) root_target []
               (mkTerminal (mkNet duplicates_world []) ["0"; "three"; " 3 "; "Yes"] []))
    as (keep & t' & Hkeep & Hrun & _ & Hdeleted & _).
  - reflexivity.
  - reflexivity.
  - vm_compute. lia.
  - reflexivity.
  - reflexivity.
  - rewrite Hrun. split; [reflexivity|]. cbn [snd]. rewrite Hdeleted.
    vm_compute in Hkeep. injection Hkeep as <-. reflexivity.
Defined.

Section CycleOutcome.

Context {W : Type} (E : Environment W).

(** ** Change detection and the value a cycle returns *)

(** X14.  [check_ip_change] never raises.  It reports a change exactly when
    the resolver returned an address and that address is not the stored
    one (none being stored counts as different); the stored address
    becomes the resolved one, or stays when nothing was resolved; the time
    of the last check is set in every case, and the time of the last
    update and the history are not touched. *)
Theorem check_ip_change_reports (a : App W) :
  exists (changed : bool) (new_ip : option string) (a' : App W),
    check_ip_change E a = (inr (changed, new_ip), a') /\
    fst (resolve E a) = inr new_ip /\
    (changed = true <->
     exists ip, new_ip = Some ip /\ current_ip (monitor a) <> Some ip) /\
    current_ip (monitor a') =
    match new_ip with
    | Some ip => Some ip
    | None => current_ip (monitor a)
    end /\
    last_check (monitor a') = Some (fst (datetime_now E (world (net a)))) /\
    last_update (monitor a') = last_update (monitor a) /\
    update_history a' = update_history a.
Proof.
  destruct (resolve_run E a) as (new_ip & n2 & urls & Hresolve & _).
  rewrite (check_ip_change_run E a new_ip n2 Hresolve), Hresolve.
  eexists _, new_ip, _. split; [reflexivity|]. split; [reflexivity|].
  split; [|repeat split].
  destruct new_ip as [ip|].
  - destruct (decide (current_ip (monitor a) = Some ip)) as [Hsame|Hdiff].
    + rewrite bool_decide_eq_true_2 by assumption. split; [discriminate|].
      intros (ip' & [= <-] & Hne). contradiction.
    + rewrite bool_decide_eq_false_2 by assumption. split; [|reflexivity].
      intros _. exists ip. split; [reflexivity|assumption].
  - split; [discriminate|]. intros (ip & [=] & _).
Qed.

(** X15.  What a false return means.  [check_and_update] never raises.  The
    outcomes it appends to the history are none, or one per configured
    target in order; and it returns false exactly when one of the outcomes
    appended in this cycle is a failure.  A cycle that resolves no address,
    or an unchanged one, therefore returns true. *)
Theorem check_and_update_false_iff_failure (config : Config) (a : App W) :
  exists (ok : bool) (new : list DNSUpdateResult) (a' : App W),
    check_and_update E config a = (inr ok, a') /\
    update_history a' = update_history a ++ new /\
    (new = [] \/ target_of <$> new = target_name <$> domains config) /\
    (ok = false <-> exists result, result ∈ new /\ ur_success result = false).
Proof.
  destruct (resolve_run E a) as (new_ip & n2 & urls & Hresolve & _).
  pose proof (check_ip_change_run E a new_ip n2 Hresolve) as Hcheck.
  assert (Hidle : forall a1 : App W,
             update_history a1 = update_history a ->
             exists ok new a',
               (inr true, a1) = (@inr exn bool ok, a') /\
               update_history a' = update_history a ++ new /\
               (new = [] \/ target_of <$> new = target_name <$> domains config) /\
               (ok = false <-> exists result, result ∈ new /\ ur_success result = false)).
  { intros a1 Hsame. exists true, [], a1. split; [reflexivity|].
    split; [rewrite app_nil_r; exact Hsame|]. split; [left; reflexivity|].
    split; [discriminate|]. intros (result & Hin & _). inversion Hin. }
  destruct new_ip as [ip|].
  - rewrite (check_and_update_resolved E config a _ _ ip Hcheck).
    destruct (_ && truthy ip); [|apply Hidle; reflexivity].
    destruct (update_all_domains_run E config ip
                (mkApp n2
                   (mkIPMonitor (Some ip)
                      (Some (fst (datetime_now E (world (net a)))))
                      (last_update (monitor a)))
                   (update_history a)))
      as (results & a2 & Hrun & Htargets & _ & Hhistory).
    rewrite Hrun. cbn [update_history] in Hhistory.
    destruct (forallb ur_success results) eqn:Hall.
    + eexists true, results, _. split; [reflexivity|].
      split; [exact Hhistory|]. split; [right; exact Htargets|].
      split; [discriminate|]. intros (result & Hin & Hbad).
      rewrite forallb_forall in Hall.
      rewrite (Hall result) in Hbad by (apply list_elem_of_In, Hin). discriminate.
    + exists false, results, a2. split; [reflexivity|].
      split; [exact Hhistory|]. split; [right; exact Htargets|].
      split; [|reflexivity]. intros _.
      assert (Hex : existsb (fun r => negb (ur_success r)) results = true).
      { clear -Hall. induction results as [|r rest IH]; [discriminate|].
        simpl in *. destruct (ur_success r); simpl in *; [apply IH, Hall|reflexivity]. }
      apply existsb_exists in Hex as (result & Hin & Hbad).
      exists result. split; [apply list_elem_of_In, Hin|].
      destruct (ur_success result); [discriminate|reflexivity].
  - unfold check_and_update, catch_all, bind at 1. rewrite Hcheck.
    apply Hidle. reflexivity.
Qed.

End CycleOutcome.

(** ** The configuration *)

Lemma domain_config_from_asdict (domain_config : DomainConfigObj) :
  domain_config_from (asdict domain_config) = inr domain_config.
Proof.
  destruct domain_config as [domain subdomain record_type ttl].
  unfold domain_config_from, asdict. cbn [o_domain o_subdomain o_record_type o_ttl].
  rewrite decide_True.
  - simplify_map_eq. reflexivity.
  - rewrite !dom_insert_L, dom_empty_L. unfold domain_config_fields. set_solver.
Qed.

Lemma domain_configs_from_asdict (domain_configs : list DomainConfigObj) :
  domain_configs_from (asdict <$> domain_configs) = inr domain_configs.
Proof.
  induction domain_configs as [|domain_config rest IH]; [reflexivity|].
  rewrite fmap_cons. cbn [domain_configs_from].
  rewrite domain_config_from_asdict, IH. reflexivity.
Qed.

(** X16.  Saving and loading agree.  [Config.from_dict] applied to what
    [Config.to_dict] returns gives the configuration back, whatever values
    its fields hold. *)
Theorem from_dict_to_dict (config : ConfigObj) :
  from_dict (to_dict config) = inr config.
Proof.
  destruct config as [key domain_configs check_interval retry_interval max_retries].
  unfold from_dict, to_dict.
  cbn [o_api_key o_domains o_check_interval o_retry_interval o_max_retries].
  simplify_map_eq. cbn [default py_iter].
  rewrite domain_configs_from_asdict. reflexivity.
Qed.

Lemma domain_config_fields_spec (kw : gmap string Py) :
  dom kw ⊆ domain_config_fields <->
  forall key, is_Some (kw !! key) ->
              key ∈ ["domain"; "subdomain"; "record_type"; "ttl"].
Proof.
  assert (Hsame : forall key : string,
             key ∈ domain_config_fields <->
             key ∈ ["domain"; "subdomain"; "record_type"; "ttl"]).
  { intros key. unfold domain_config_fields.
    rewrite !elem_of_union, !elem_of_singleton, !elem_of_cons, elem_of_nil. tauto. }
  split.
  - intros Hsub key Hkey. apply Hsame, Hsub, elem_of_dom, Hkey.
  - intros Hall key Hkey. apply Hsame, Hall, elem_of_dom, Hkey.
Qed.

Lemma domain_config_from_spec (d : Py) :
  match domain_config_from d with
  | inr domain_config => entry_makes d domain_config
  | inl e => e = TypeError /\ ~ exists domain_config, entry_makes d domain_config
  end.
Proof.
  unfold domain_config_from.
  destruct d as [ | | | | | |kw];
    try (split; [reflexivity|]; intros (dc & kw & Heq & _); discriminate).
  destruct (decide (dom kw ⊆ domain_config_fields)) as [Hfields|Hunknown].
  - destruct (kw !! "domain") as [domain|] eqn:Hdomain.
    + destruct (kw !! "subdomain") as [subdomain|] eqn:Hsubdomain.
      * exists kw. split; [reflexivity|].
        split; [apply domain_config_fields_spec, Hfields|]. repeat split; assumption.
      * split; [reflexivity|]. intros (dc & kw' & [= <-] & _ & _ & Hsub & _).
        congruence.
    + split; [reflexivity|]. intros (dc & kw' & [= <-] & _ & Hdom & _). congruence.
  - split; [reflexivity|]. intros (dc & kw' & [= <-] & Hfields & _).
    apply Hunknown, domain_config_fields_spec, Hfields.
Qed.

Lemma domain_configs_from_spec (items : list Py) :
  match domain_configs_from items with
  | inr domain_configs => Forall2 entry_makes items domain_configs
  | inl e =>
      e = TypeError /\ ~ exists domain_configs, Forall2 entry_makes items domain_configs
  end.
Proof.
  induction items as [|d rest IH]; cbn [domain_configs_from]; [constructor|].
  pose proof (domain_config_from_spec d) as Hd.
  destruct (domain_config_from d) as [e|domain_config].
  - destruct Hd as [-> Hnone]. split; [reflexivity|].
    intros (dcs & Hall). inversion Hall; subst. apply Hnone. eexists. eassumption.
  - destruct (domain_configs_from rest) as [e|domain_configs].
    + destruct IH as [-> Hnone]. split; [reflexivity|].
      intros (dcs & Hall). inversion Hall; subst. apply Hnone. eexists. eassumption.
    + constructor; assumption.
Qed.

(** X17.  What [Config.from_dict] makes of a dict.  It succeeds when the
    key api_key is present and every item of the value under domains (no
    item when the key is absent) is a dict that has domain and subdomain
    and no key besides these, record_type and ttl; the configuration then
    holds the values given, with A and 300 for a missing kind and TTL and
    300, 60 and 3 for a missing check interval, retry interval and retry
    count.  It raises [TypeError] when the domains are not such items,
    whether or not api_key is present, and [KeyError] for api_key only when
    the domains are fine and api_key is missing. *)
Theorem from_dict_result (data : gmap string Py) :
  match from_dict (PyDict data) with
  | inr config =>
      data !! "api_key" = Some (o_api_key config) /\
      o_check_interval config = default (PyInt 300) (data !! "check_interval") /\
      o_retry_interval config = default (PyInt 60) (data !! "retry_interval") /\
      o_max_retries config = default (PyInt 3) (data !! "max_retries") /\
      exists items,
        py_iter (default (PyList []) (data !! "domains")) = inr items /\
        Forall2 entry_makes items (o_domains config)
  | inl (KeyError key) =>
      key = "api_key" /\ data !! "api_key" = None /\
      exists items domain_configs,
        py_iter (default (PyList []) (data !! "domains")) = inr items /\
        Forall2 entry_makes items domain_configs
  | inl TypeError =>
      ~ exists items domain_configs,
          py_iter (default (PyList []) (data !! "domains")) = inr items /\
          Forall2 entry_makes items domain_configs
  | inl AttributeError => False
  end.
Proof.
  unfold from_dict.
  destruct (py_iter (default (PyList []) (data !! "domains"))) as [e|items] eqn:Hiter.
  - assert (e = TypeError) as ->.
    { unfold py_iter in Hiter.
      destruct (default (PyList []) (data !! "domains")); congruence. }
    intros (items & dcs & [=] & _).
  - pose proof (domain_configs_from_spec items) as Hitems.
    destruct (domain_configs_from items) as [e|domain_configs].
    + destruct Hitems as [-> Hnone]. intros (items' & dcs & [= <-] & Hall).
      apply Hnone. exists dcs. exact Hall.
    + destruct (data !! "api_key") as [key|].
      * cbn. repeat split. exists items. split; [reflexivity|exact Hitems].
      * split; [reflexivity|]. split; [reflexivity|].
        exists items, domain_configs. split; [reflexivity|exact Hitems].
Qed.

Section Traffic.

Context {W : Type} (E : Environment W).

(** ** The traffic of a cycle *)

Lemma update_single_domain_added (domain_config : DomainConfig) (ip_address : string)
    (n : Net W) :
  exists added : list Event,
    trace (snd (_update_single_domain E domain_config ip_address n))
    = trace n ++ added /\
    Forall (fun ev => is_provider_call ev = true) added /\
    (length added <= 10)%nat.
Proof.
  unfold _update_single_domain, catch_all, bind at 1.
  destruct (find_dns_record E (dc_domain domain_config) (dc_subdomain domain_config)
              (dc_record_type domain_config) n) as [[e|existing] n1] eqn:Hfind.
  - unfold bind, now, ret. destruct (datetime_now E (world n1)) as [t w].
    cbn [snd trace]. rewrite (find_dns_record_trace E _ _ _ _ _ _ Hfind).
    eexists. split; [reflexivity|]. split; [|cbn; lia].
    constructor; [reflexivity|constructor].
  - unfold bind at 1.
    destruct (update_or_create_added E (dc_domain domain_config)
                (dc_subdomain domain_config) ip_address
                (dc_record_type domain_config) (dc_ttl domain_config) n1)
      as (added & Htrace & Hlen & Hshape).
    assert (Hcalls : Forall (fun ev => is_provider_call ev = true)
                       (EvList (dc_domain domain_config)
                        :: EvList (dc_domain domain_config) :: added)).
    { constructor; [reflexivity|]. constructor; [reflexivity|].
      destruct Hshape as [->|[(record_id & payload & ->)|(creates & -> & Hcreates & _)]].
      - constructor.
      - constructor; [reflexivity|constructor].
      - constructor; [reflexivity|].
        eapply Forall_impl; [exact Hcreates|]. intros ev [payload ->]. reflexivity. }
    destruct (update_or_create_dns_record E _ _ _ _ _ n1) as [[e|[]] n2];
      cbn [snd] in Htrace; unfold bind, now, ret;
      destruct (datetime_now E (world n2)) as [t w]; cbn [snd trace];
      rewrite Htrace, (find_dns_record_trace E _ _ _ _ _ _ Hfind), <- app_assoc;
      (eexists; split; [reflexivity|]; split; [exact Hcalls|cbn; lia]).
Qed.

Lemma update_domains_loop_traffic (n_domains : nat) (ip_address : string)
    (todo : list DomainConfig) (results : list DNSUpdateResult) (a : App W) :
  exists added : list Event,
    trace (net (snd (update_domains_loop E n_domains ip_address todo results a)))
    = trace (net a) ++ added /\
    (length (List.filter is_provider_call added) <= 10 * length todo)%nat /\
    List.filter (fun ev => negb (is_provider_call ev)) added
    = if (1 <? n_domains)%nat then repeat (EvSleep 1) (length todo) else [].
Proof.
  revert results a. induction todo as [|domain_config rest IH]; intros results a.
  - exists []. cbn [update_domains_loop]. unfold ret.
    cbn [snd net length List.filter repeat]. rewrite app_nil_r.
    split; [reflexivity|]. split; [lia|]. destruct (1 <? n_domains)%nat; reflexivity.
  - rewrite update_domains_loop_step.
    destruct (update_single_domain_added domain_config ip_address (net a))
      as (added1 & Htrace1 & Hcalls & Hlen).
    destruct (update_single_domain_total E domain_config ip_address (net a))
      as (result & n' & Hone & _).
    rewrite Hone in Htrace1 |- *. cbn [snd] in Htrace1.
    assert (Hkeep : List.filter is_provider_call added1 = added1).
    { clear -Hcalls. induction Hcalls as [|ev l Hev _ IHl]; [reflexivity|].
      cbn [List.filter]. rewrite Hev, IHl. reflexivity. }
    assert (Hdrop : List.filter (fun ev => negb (is_provider_call ev)) added1 = []).
    { clear -Hcalls. induction Hcalls as [|ev l Hev _ IHl]; [reflexivity|].
      cbn [List.filter]. rewrite Hev. exact IHl. }
    match goal with
    | |- context [update_domains_loop E n_domains ip_address rest ?r ?a1] =>
        destruct (IH r a1) as (added & Htrace & Hcount & Hsleeps)
    end.
    cbn [net] in Htrace.
    destruct (1 <? n_domains)%nat.
    + exists (added1 ++ EvSleep 1 :: added). rewrite Htrace. cbn [trace].
      rewrite Htrace1. split; [rewrite <- !app_assoc; reflexivity|].
      rewrite !List.filter_app. cbn [List.filter is_provider_call negb].
      rewrite Hkeep, Hdrop, Hsleeps, length_app. cbn [length app repeat].
      split; [lia|reflexivity].
    + exists (added1 ++ added). rewrite Htrace, Htrace1.
      split; [rewrite <- !app_assoc; reflexivity|].
      rewrite !List.filter_app, Hkeep, Hdrop, Hsleeps, length_app. cbn [length app].
      split; [lia|reflexivity].
Qed.

(** X18.  The traffic of [update_all_domains].  For each configured target
    it sends at most ten requests to the provider; between them it asks
    nothing of the echo services; and it pauses for one second after each
    target when more than one target is configured, and not at all
    otherwise. *)
Theorem update_all_domains_traffic (config : Config) (ip_address : string)
    (a : App W) :
  exists added : list Event,
    trace (net (snd (update_all_domains E config ip_address a)))
    = trace (net a) ++ added /\
    (length (List.filter is_provider_call added) <= 10 * length (domains config))%nat /\
    List.filter (fun ev => negb (is_provider_call ev)) added
    = if (1 <? length (domains config))%nat
      then repeat (EvSleep 1) (length (domains config))
      else [].
Proof. apply update_domains_loop_traffic. Qed.

End Traffic.
